(** * PyInstaller Django hook utilities: hidden-import collection

    A shallow embedding of [django_dottedstring_imports] from
    [PyInstaller/utils/hooks/django.py], together with the properties of
    the list of hidden imports it returns.

    The function reads a Django settings object, appends module names to
    the local list [hiddenimports] and finally deduplicates it through a
    Python [set].  The embedding threads [hiddenimports] through a small
    state-and-exception monad, so that every statement of the source has a
    counterpart below. *)

From Stdlib Require Import String Ascii List Bool Permutation.
Import ListNotations.

Local Open Scope string_scope.
Local Open Scope list_scope.

Set Implicit Arguments.

(* ================================================================== *)
(** * Python values used by the hook *)

(** The two exceptions the body can raise on a well-typed settings
    object: attribute access on the settings object and subscripting of a
    dictionary. *)
Inductive exn : Type :=
| AttributeError (name : string)
| KeyError (key : string).

Inductive result (A : Type) : Type :=
| Ok (a : A)
| Raise (e : exn).

Arguments Ok {A} a.
Arguments Raise {A} e.

(** A dictionary whose keys are alias names (CACHES, STORAGES,
    DATABASES): the association list in insertion order, which is the
    order [values()] iterates in. *)
Definition dict (V : Type) : Type := list (string * V).

Definition values {V : Type} (d : dict V) : list V := map snd d.

(** [d.get(key, default)] on a dictionary entry that is either absent
    ([None]) or present. *)
Definition get {A : Type} (entry : option A) (default : A) : A :=
  match entry with
  | Some v => v
  | None => default
  end.

(** Truth value of a string: [if cl:] is taken for a non-empty string. *)
Definition nonempty (s : string) : bool :=
  match s with
  | EmptyString => false
  | String _ _ => true
  end.

(** Names that [hasattr] finds on a plain [dict] instance.  The keys of
    the dictionary are not attributes. *)
Definition dict_attributes : list string :=
  [ "__class__"; "__class_getitem__"; "__contains__"; "__delattr__";
    "__delitem__"; "__dir__"; "__doc__"; "__eq__"; "__format__"; "__ge__";
    "__getattribute__"; "__getitem__"; "__getstate__"; "__gt__";
    "__hash__"; "__init__"; "__init_subclass__"; "__ior__"; "__iter__";
    "__le__"; "__len__"; "__lt__"; "__ne__"; "__new__"; "__or__";
    "__reduce__"; "__reduce_ex__"; "__repr__"; "__reversed__"; "__ror__";
    "__setattr__"; "__setitem__"; "__sizeof__"; "__str__";
    "__subclasshook__"; "clear"; "copy"; "fromkeys"; "get"; "items";
    "keys"; "pop"; "popitem"; "setdefault"; "update"; "values" ].

(** [hasattr(d, name)] for a dictionary [d]: independent of its contents. *)
Definition dict_hasattr (name : string) : bool :=
  existsb (String.eqb name) dict_attributes.

(* ------------------------------------------------------------------ *)
(** ** String operations *)

(** [s.split(sep)] for a one-character separator: never empty, and one
    component longer than the number of separators in [s]. *)
Fixpoint split (sep : ascii) (s : string) : list string :=
  match s with
  | EmptyString => [EmptyString]
  | String c s' =>
      if Ascii.eqb c sep then EmptyString :: split sep s'
      else match split sep s' with
           | [] => [String c EmptyString]
           | w :: ws => String c w :: ws
           end
  end.

(** [sep.join(l)]. *)
Definition join (sep : string) (l : list string) : string :=
  String.concat sep l.

(** [l[0:-1]]: all elements but the last, and [[]] for the empty list. *)
Definition but_last {A : Type} (l : list A) : list A := removelast l.

(** Lines 60-61:
<<
    def _remove_class(class_name):
        return '.'.join(class_name.split('.')[0:-1])
>> *)
Definition _remove_class (class_name : string) : string :=
  join "." (but_last (split "." class_name)).

(** Whether a string contains the character ['.']. *)
Fixpoint has_dot (s : string) : bool :=
  match s with
  | EmptyString => false
  | String c s' => Ascii.eqb c "." || has_dot s'
  end.

(* ------------------------------------------------------------------ *)
(** ** The settings object *)

(** A TEMPLATES entry's ['OPTIONS'] dictionary. *)
Record TemplateOptions : Type := {
  context_processors : option (list string)
}.

(** A TEMPLATES entry: a dictionary; each key may be absent. *)
Record Template : Type := {
  template_BACKEND : option string;
  template_OPTIONS : option TemplateOptions
}.

(** A CACHES entry's ['OPTIONS'] dictionary. *)
Record CacheOptions : Type := {
  CLIENT_CLASS : option string
}.

Record Cache : Type := {
  cache_BACKEND : option string;
  cache_OPTIONS : option CacheOptions
}.

Record Storage : Type := {
  storage_BACKEND : option string
}.

Record Database : Type := {
  ENGINE : option string
}.

(** [django.conf.settings], restricted to the attributes the hook reads.
    A field is [None] when the settings object has no such attribute
    ([hasattr] is false and plain access raises [AttributeError]).  For
    DEFAULT_FILE_STORAGE, which is only read through
    [getattr(settings, 'DEFAULT_FILE_STORAGE', None)], [None] also stands
    for an attribute that is present and holds Python's [None]. *)
Record Settings : Type := {
  INSTALLED_APPS : option (list string);
  TEMPLATE_CONTEXT_PROCESSORS : option (list string);
  TEMPLATES : option (list Template);
  CACHES : option (dict Cache);
  STORAGES : option (dict Storage);
  TEMPLATE_LOADERS : option (list string);
  ROOT_URLCONF : option string;
  AUTHENTICATION_BACKENDS : option (list string);
  DEFAULT_FILE_STORAGE : option string;
  FILE_UPLOAD_HANDLERS : option (list string);
  MIDDLEWARE_CLASSES : option (list string);
  MIDDLEWARE : option (list string);
  DATABASES : option (dict Database)
}.

(** The empty dictionary [{}] used as default of [get('OPTIONS', {})]. *)
Definition no_template_options : TemplateOptions :=
  {| context_processors := None |}.

Definition no_cache_options : CacheOptions :=
  {| CLIENT_CLASS := None |}.

(* ------------------------------------------------------------------ *)
(** ** Iteration order of a Python set *)

(** [list(set(l))].  Python leaves the iteration order of a set
    unspecified: it follows the hashes of the elements, and string hashes
    are salted per interpreter process (PYTHONHASHSEED).  An interpreter
    is therefore described by the function it computes from the list
    that was turned into a set, of which only the set semantics is known:
    the result has no duplicates and the same elements. *)
Record SetIteration : Type := {
  list_of_set : list string -> list string;
  list_of_set_NoDup : forall l, NoDup (list_of_set l);
  list_of_set_In : forall l x, In x (list_of_set l) <-> In x l
}.

(* ================================================================== *)
(** * The monad of the function body *)

(** A statement transforms [hiddenimports] or raises. *)
Definition M (A : Type) : Type := list string -> result (A * list string).

Definition ret {A : Type} (a : A) : M A := fun h => Ok (a, h).

Definition bind {A B : Type} (m : M A) (k : A -> M B) : M B :=
  fun h =>
    match m h with
    | Ok (a, h') => k a h'
    | Raise e => Raise e
    end.

Definition raise {A : Type} (e : exn) : M A := fun _ => Raise e.

Declare Scope py_scope.
Delimit Scope py_scope with py.
Notation "x <- m ;; k" := (bind m (fun x => k))
  (at level 61, m at next level, right associativity) : py_scope.
Notation "m ;; k" := (bind m (fun _ => k))
  (at level 61, right associativity) : py_scope.

(** [hiddenimports = l]. *)
Definition assign (l : list string) : M unit := fun _ => Ok (tt, l).

(** Reading the variable [hiddenimports]. *)
Definition read : M (list string) := fun h => Ok (h, h).

(** [hiddenimports.append(x)]. *)
Definition append (x : string) : M unit := fun h => Ok (tt, h ++ [x]).

(** [hiddenimports += l]. *)
Definition extend (l : list string) : M unit := fun h => Ok (tt, h ++ l).

Definition pass : M unit := ret tt.

(** [for x in l: body]. *)
Fixpoint for_each {A : Type} (l : list A) (body : A -> M unit) : M unit :=
  match l with
  | [] => pass
  | x :: l' => (body x ;; for_each l' body)%py
  end.

(** [settings.name], raising [AttributeError] when absent. *)
Definition getattr {A : Type} (name : string) (attr : option A) : M A :=
  match attr with
  | Some v => ret v
  | None => raise (AttributeError name)
  end.

(** [d[key]], raising [KeyError] when absent. *)
Definition getitem {A : Type} (key : string) (entry : option A) : M A :=
  match entry with
  | Some v => ret v
  | None => raise (KeyError key)
  end.

(** [if hasattr(settings, name): body(settings.name)]. *)
Definition if_hasattr {A : Type} (attr : option A) (body : A -> M unit)
  : M unit :=
  match attr with
  | Some v => body v
  | None => pass
  end.

(** [if v: body(v)] for [v] a string or [None]: [None] and the empty
    string are false. *)
Definition if_truthy (v : option string) (body : string -> M unit)
  : M unit :=
  match v with
  | Some s => if nonempty s then body s else pass
  | None => pass
  end.

(** Running a body from the state before line 57, where [hiddenimports]
    is not bound yet. *)
Definition run {A : Type} (m : M A) : result A :=
  match m [] with
  | Ok (a, _) => Ok a
  | Raise e => Raise e
  end.

(** [d.get(key)] and [getattr(o, name, None)]: the value, or Python's
    [None] when the key or attribute is absent. *)
Definition get_None {A : Type} (entry : option A) : option A := entry.

(* ================================================================== *)
(** * [django_dottedstring_imports] *)

Local Open Scope py_scope.

(** Line 57:
<<
    hiddenimports = list(settings.INSTALLED_APPS)
>> *)
Definition init_INSTALLED_APPS (settings : Settings) : M unit :=
  apps <- getattr "INSTALLED_APPS" (INSTALLED_APPS settings) ;;
  assign apps.

(** Lines 64-65:
<<
    if hasattr(settings, 'TEMPLATE_CONTEXT_PROCESSORS'):
        hiddenimports += list(settings.TEMPLATE_CONTEXT_PROCESSORS)
>> *)
Definition add_TEMPLATE_CONTEXT_PROCESSORS (settings : Settings) : M unit :=
  if_hasattr (TEMPLATE_CONTEXT_PROCESSORS settings) (fun l => extend l).

(** Lines 67-69:
<<
    if hasattr(settings, 'TEMPLATES'):
        for template in settings.TEMPLATES:
            hiddenimports += list(template.get('OPTIONS', {}).get('context_processors', []))
>> *)
Definition add_TEMPLATES_context_processors (settings : Settings) : M unit :=
  if_hasattr (TEMPLATES settings) (fun templates =>
    for_each templates (fun template =>
      extend (get (context_processors
                     (get (template_OPTIONS template) no_template_options))
                  []))).

(** Lines 71-79:
<<
    if hasattr(settings, 'CACHES'):
        for cache in settings.CACHES.values():
            if cache.get('BACKEND'):
                cl = _remove_class(cache.get('BACKEND'))
                hiddenimports.append(cl)
            client_class = cache.get('OPTIONS', {}).get('CLIENT_CLASS')
            if client_class:
                cl = _remove_class(client_class)
                hiddenimports.append(cl)
>> *)
Definition add_CACHES (settings : Settings) : M unit :=
  if_hasattr (CACHES settings) (fun caches =>
    for_each (values caches) (fun cache =>
      if_truthy (get_None (cache_BACKEND cache)) (fun backend =>
        let cl := _remove_class backend in
        append cl) ;;
      let client_class :=
        get_None (CLIENT_CLASS (get (cache_OPTIONS cache) no_cache_options)) in
      if_truthy client_class (fun client_class =>
        let cl := _remove_class client_class in
        append cl))).

(** Lines 81-84; the stripped name is bound to [cl] and not appended:
<<
    if hasattr(settings, 'STORAGES'):
        for storage in settings.STORAGES.values():
            if storage.get('BACKEND'):
                cl = _remove_class(storage.get('BACKEND'))
>> *)
Definition scan_STORAGES (settings : Settings) : M unit :=
  if_hasattr (STORAGES settings) (fun storages =>
    for_each (values storages) (fun storage =>
      if_truthy (get_None (storage_BACKEND storage)) (fun backend =>
        let cl := _remove_class backend in
        pass))).

(** Lines 86-87:
<<
    if hasattr(settings, 'TEMPLATE_LOADERS'):
        hiddenimports += list(settings.TEMPLATE_LOADERS)
>> *)
Definition add_TEMPLATE_LOADERS (settings : Settings) : M unit :=
  if_hasattr (TEMPLATE_LOADERS settings) (fun l => extend l).

(** Line 89:
<<
    hiddenimports += [settings.ROOT_URLCONF]
>> *)
Definition add_ROOT_URLCONF (settings : Settings) : M unit :=
  root <- getattr "ROOT_URLCONF" (ROOT_URLCONF settings) ;;
  extend [root].

(** The shape shared by lines 94-97, 102-105, 106-109 and 110-113:
<<
    if hasattr(settings, NAME):
        for cl in settings.NAME:
            cl = _remove_class(cl)
            hiddenimports.append(cl)
>> *)
Definition add_class_names (attr : option (list string)) : M unit :=
  if_hasattr attr (fun names =>
    for_each names (fun cl =>
      let cl := _remove_class cl in
      append cl)).

(** Lines 99-101:
<<
    cl = getattr(settings, 'DEFAULT_FILE_STORAGE', None)
    if cl:
        hiddenimports.append(_remove_class(cl))
>> *)
Definition add_DEFAULT_FILE_STORAGE (settings : Settings) : M unit :=
  let cl := get_None (DEFAULT_FILE_STORAGE settings) in
  if_truthy cl (fun cl => append (_remove_class cl)).

(** Lines 115-125:
<<
    if hasattr(settings, 'TEMPLATES'):
        for templ in settings.TEMPLATES:
            backend = _remove_class(templ['BACKEND'])
            hiddenimports.append(backend)
            # Include context_processors.
            if hasattr(templ, 'OPTIONS'):
                if hasattr(templ['OPTIONS'], 'context_processors'):
                    # Context processors are functions - strip last word.
                    mods = templ['OPTIONS']['context_processors']
                    mods = [_remove_class(x) for x in mods]
                    hiddenimports += mods
>>
    [templ] and [templ['OPTIONS']] are dictionaries, so both [hasattr]
    tests are [dict_hasattr]. *)
Definition add_TEMPLATES_backends (settings : Settings) : M unit :=
  if_hasattr (TEMPLATES settings) (fun templates =>
    for_each templates (fun templ =>
      backend <- getitem "BACKEND" (template_BACKEND templ) ;;
      let backend := _remove_class backend in
      append backend ;;
      if dict_hasattr "OPTIONS" then
        _ <- getitem "OPTIONS" (template_OPTIONS templ) ;;
        if dict_hasattr "context_processors" then
          options <- getitem "OPTIONS" (template_OPTIONS templ) ;;
          mods <- getitem "context_processors" (context_processors options) ;;
          let mods := map _remove_class mods in
          extend mods
        else pass
      else pass)).

(** Lines 127-128:
<<
    for v in settings.DATABASES.values():
        hiddenimports.append(v['ENGINE'])
>> *)
Definition add_DATABASES (settings : Settings) : M unit :=
  databases <- getattr "DATABASES" (DATABASES settings) ;;
  for_each (values databases) (fun v =>
    engine <- getitem "ENGINE" (ENGINE v) ;;
    append engine).

Section Host.

(** [hookutils.collect_submodules], owned by the host tool: the names of
    the submodules of a package found on the search path. *)
Variable collect_submodules : string -> list string.

(** The interpreter the isolated helper runs in. *)
Variable python : SetIteration.

(** Lines 131-136:
<<
    for app in settings.INSTALLED_APPS:
        app_templatetag_module = app + '.templatetags'
        app_ctx_proc_module = app + '.context_processors'
        hiddenimports.append(app_templatetag_module)
        hiddenimports += hookutils.collect_submodules(app_templatetag_module)
        hiddenimports.append(app_ctx_proc_module)
>> *)
Definition add_app_modules (settings : Settings) : M unit :=
  apps <- getattr "INSTALLED_APPS" (INSTALLED_APPS settings) ;;
  for_each apps (fun app =>
    let app_templatetag_module := (app ++ ".templatetags")%string in
    let app_ctx_proc_module := (app ++ ".context_processors")%string in
    append app_templatetag_module ;;
    extend (collect_submodules app_templatetag_module) ;;
    append app_ctx_proc_module).

(** Lines 139-142:
<<
    hiddenimports = list(set(hiddenimports))
    return hiddenimports
>> *)
Definition deduplicate : M (list string) :=
  hiddenimports <- read ;;
  assign (list_of_set python hiddenimports) ;;
  read.

(** The statements of lines 57-136, which build [hiddenimports]. *)
Definition collect (settings : Settings) : M unit :=
  init_INSTALLED_APPS settings ;;
  add_TEMPLATE_CONTEXT_PROCESSORS settings ;;
  add_TEMPLATES_context_processors settings ;;
  add_CACHES settings ;;
  scan_STORAGES settings ;;
  add_TEMPLATE_LOADERS settings ;;
  add_ROOT_URLCONF settings ;;
  add_class_names (AUTHENTICATION_BACKENDS settings) ;;
  add_DEFAULT_FILE_STORAGE settings ;;
  add_class_names (FILE_UPLOAD_HANDLERS settings) ;;
  add_class_names (MIDDLEWARE_CLASSES settings) ;;
  add_class_names (MIDDLEWARE settings) ;;
  add_TEMPLATES_backends settings ;;
  add_DATABASES settings ;;
  add_app_modules settings.

(** The body of [django_dottedstring_imports] from line 57 on, applied to
    the settings object that [django.setup()] has loaded. *)
Definition django_dottedstring_imports (settings : Settings)
  : result (list string) :=
  run (collect settings ;; deduplicate).

End Host.

(* ================================================================== *)
(** * What each setting contributes *)

(** The contributions of the settings one by one, as lists, in the order
    the function visits them.  They are stated independently of the
    monadic body and compared with it in [collect_spec]. *)

(** A guarded class name ([if v: append(_remove_class(v))]). *)
Definition stripped (v : option string) : list string :=
  match v with
  | Some s => if nonempty s then [_remove_class s] else []
  | None => []
  end.

Definition template_context_processors (t : Template) : list string :=
  get (context_processors (get (template_OPTIONS t) no_template_options)) [].

Definition cache_classes (c : Cache) : list string :=
  stripped (cache_BACKEND c)
  ++ stripped (CLIENT_CLASS (get (cache_OPTIONS c) no_cache_options)).

Definition class_modules (attr : option (list string)) : list string :=
  map _remove_class (get attr []).

Definition template_backend_module (t : Template) : string :=
  _remove_class (get (template_BACKEND t) "").

Definition database_engine (v : Database) : string := get (ENGINE v) "".

Definition app_modules (collect_submodules : string -> list string)
  (app : string) : list string :=
  [(app ++ ".templatetags")%string]
  ++ collect_submodules (app ++ ".templatetags")%string
  ++ [(app ++ ".context_processors")%string].

(** The concatenation of the per-attribute contributions; STORAGES has
    none. *)
Definition contributions (collect_submodules : string -> list string)
  (settings : Settings) : list string :=
  get (INSTALLED_APPS settings) []
  ++ get (TEMPLATE_CONTEXT_PROCESSORS settings) []
  ++ flat_map template_context_processors (get (TEMPLATES settings) [])
  ++ flat_map cache_classes (values (get (CACHES settings) []))
  ++ get (TEMPLATE_LOADERS settings) []
  ++ get (option_map (fun root => [root]) (ROOT_URLCONF settings)) []
  ++ class_modules (AUTHENTICATION_BACKENDS settings)
  ++ stripped (DEFAULT_FILE_STORAGE settings)
  ++ class_modules (FILE_UPLOAD_HANDLERS settings)
  ++ class_modules (MIDDLEWARE_CLASSES settings)
  ++ class_modules (MIDDLEWARE settings)
  ++ map template_backend_module (get (TEMPLATES settings) [])
  ++ map database_engine (values (get (DATABASES settings) []))
  ++ flat_map (app_modules collect_submodules)
       (get (INSTALLED_APPS settings) []).

(** The attributes the function reads without a [hasattr] guard are
    present, and so are the keys it subscripts. *)
Definition required_present (settings : Settings) : Prop :=
  INSTALLED_APPS settings <> None
  /\ ROOT_URLCONF settings <> None
  /\ DATABASES settings <> None
  /\ Forall (fun t => template_BACKEND t <> None)
       (get (TEMPLATES settings) [])
  /\ Forall (fun v => ENGINE v <> None)
       (values (get (DATABASES settings) [])).

(** A class name the function strips before it appends it: an entry of
    one of the four list settings, a TEMPLATES entry's BACKEND, or a
    non-empty DEFAULT_FILE_STORAGE, CACHES BACKEND or CACHES
    OPTIONS.CLIENT_CLASS. *)
Inductive class_name (settings : Settings) (cl : string) : Prop :=
| cn_AUTHENTICATION_BACKENDS l :
    AUTHENTICATION_BACKENDS settings = Some l -> In cl l ->
    class_name settings cl
| cn_FILE_UPLOAD_HANDLERS l :
    FILE_UPLOAD_HANDLERS settings = Some l -> In cl l ->
    class_name settings cl
| cn_MIDDLEWARE_CLASSES l :
    MIDDLEWARE_CLASSES settings = Some l -> In cl l ->
    class_name settings cl
| cn_MIDDLEWARE l :
    MIDDLEWARE settings = Some l -> In cl l ->
    class_name settings cl
| cn_DEFAULT_FILE_STORAGE :
    DEFAULT_FILE_STORAGE settings = Some cl -> nonempty cl = true ->
    class_name settings cl
| cn_CACHES_BACKEND caches alias cache :
    CACHES settings = Some caches -> In (alias, cache) caches ->
    cache_BACKEND cache = Some cl -> nonempty cl = true ->
    class_name settings cl
| cn_CACHES_CLIENT_CLASS caches alias cache options :
    CACHES settings = Some caches -> In (alias, cache) caches ->
    cache_OPTIONS cache = Some options ->
    CLIENT_CLASS options = Some cl -> nonempty cl = true ->
    class_name settings cl
| cn_TEMPLATES_BACKEND templates templ :
    TEMPLATES settings = Some templates -> In templ templates ->
    template_BACKEND templ = Some cl ->
    class_name settings cl.

(** A module name the function appends as it stands. *)
Inductive plain_module (settings : Settings) (m : string) : Prop :=
| pm_INSTALLED_APPS l :
    INSTALLED_APPS settings = Some l -> In m l -> plain_module settings m
| pm_TEMPLATE_CONTEXT_PROCESSORS l :
    TEMPLATE_CONTEXT_PROCESSORS settings = Some l -> In m l ->
    plain_module settings m
| pm_TEMPLATE_LOADERS l :
    TEMPLATE_LOADERS settings = Some l -> In m l -> plain_module settings m
| pm_ROOT_URLCONF :
    ROOT_URLCONF settings = Some m -> plain_module settings m
| pm_DATABASES databases alias v :
    DATABASES settings = Some databases -> In (alias, v) databases ->
    ENGINE v = Some m -> plain_module settings m.

(** A context processor listed under a TEMPLATES entry's OPTIONS. *)
Definition template_context_processor (settings : Settings) (p : string)
  : Prop :=
  exists templates templ options l,
    TEMPLATES settings = Some templates /\ In templ templates
    /\ template_OPTIONS templ = Some options
    /\ context_processors options = Some l /\ In p l.

(** Functional update of STORAGES. *)
Definition with_STORAGES (storages : option (dict Storage))
  (s : Settings) : Settings :=
  {| INSTALLED_APPS := INSTALLED_APPS s;
     TEMPLATE_CONTEXT_PROCESSORS := TEMPLATE_CONTEXT_PROCESSORS s;
     TEMPLATES := TEMPLATES s;
     CACHES := CACHES s;
     STORAGES := storages;
     TEMPLATE_LOADERS := TEMPLATE_LOADERS s;
     ROOT_URLCONF := ROOT_URLCONF s;
     AUTHENTICATION_BACKENDS := AUTHENTICATION_BACKENDS s;
     DEFAULT_FILE_STORAGE := DEFAULT_FILE_STORAGE s;
     FILE_UPLOAD_HANDLERS := FILE_UPLOAD_HANDLERS s;
     MIDDLEWARE_CLASSES := MIDDLEWARE_CLASSES s;
     MIDDLEWARE := MIDDLEWARE s;
     DATABASES := DATABASES s |}.

(** A guarded attribute that is absent, read as its empty value. *)
Definition or_empty {A : Type} (attr : option (list A)) : option (list A) :=
  Some (get attr []).

(** The settings object with every absent [hasattr]-guarded attribute
    set to the empty list or dictionary.  DEFAULT_FILE_STORAGE is read
    with a default of [None] and stays as it is. *)
Definition with_empty_defaults (s : Settings) : Settings :=
  {| INSTALLED_APPS := INSTALLED_APPS s;
     TEMPLATE_CONTEXT_PROCESSORS := or_empty (TEMPLATE_CONTEXT_PROCESSORS s);
     TEMPLATES := or_empty (TEMPLATES s);
     CACHES := or_empty (CACHES s);
     STORAGES := or_empty (STORAGES s);
     TEMPLATE_LOADERS := or_empty (TEMPLATE_LOADERS s);
     ROOT_URLCONF := ROOT_URLCONF s;
     AUTHENTICATION_BACKENDS := or_empty (AUTHENTICATION_BACKENDS s);
     DEFAULT_FILE_STORAGE := DEFAULT_FILE_STORAGE s;
     FILE_UPLOAD_HANDLERS := or_empty (FILE_UPLOAD_HANDLERS s);
     MIDDLEWARE_CLASSES := or_empty (MIDDLEWARE_CLASSES s);
     MIDDLEWARE := or_empty (MIDDLEWARE s);
     DATABASES := DATABASES s |}.

(* ------------------------------------------------------------------ *)
(** ** Two interpreters and a sample project *)

(** Two admissible iteration orders: the order [nodup] leaves, and its
    reverse. *)
Definition iteration_kept : SetIteration :=
  {| list_of_set := nodup string_dec;
     list_of_set_NoDup := NoDup_nodup string_dec;
     list_of_set_In := nodup_In string_dec |}.

Definition iteration_reversed : SetIteration :=
  {| list_of_set := fun l => rev (nodup string_dec l);
     list_of_set_NoDup := fun l => NoDup_rev (NoDup_nodup string_dec l);
     list_of_set_In := fun l x =>
       iff_trans (iff_sym (in_rev (nodup string_dec l) x))
                 (nodup_In string_dec l x) |}.

(** A search path on which only [polls.templatetags] has a submodule. *)
Definition polls_submodules (package : string) : list string :=
  if String.eqb package "polls.templatetags"
  then ["polls.templatetags.poll_extras"]
  else [].

(** The settings of a small project, in the shape [startproject] writes
    them. *)
Definition mysite_settings : Settings :=
  {| INSTALLED_APPS := Some ["django.contrib.auth"; "polls"];
     TEMPLATE_CONTEXT_PROCESSORS := None;
     TEMPLATES := Some
       [ {| template_BACKEND :=
              Some "django.template.backends.django.DjangoTemplates";
            template_OPTIONS := Some
              {| context_processors :=
                   Some ["django.template.context_processors.request"] |} |} ];
     CACHES := Some
       [ ("default",
          {| cache_BACKEND :=
               Some "django.core.cache.backends.locmem.LocMemCache";
             cache_OPTIONS := None |}) ];
     STORAGES := Some
       [ ("default",
          {| storage_BACKEND :=
               Some "django.core.files.storage.FileSystemStorage" |}) ];
     TEMPLATE_LOADERS := None;
     ROOT_URLCONF := Some "mysite.urls";
     AUTHENTICATION_BACKENDS :=
       Some ["django.contrib.auth.backends.ModelBackend"];
     DEFAULT_FILE_STORAGE := None;
     FILE_UPLOAD_HANDLERS := None;
     MIDDLEWARE_CLASSES := None;
     MIDDLEWARE := Some ["django.middleware.common.CommonMiddleware"];
     DATABASES := Some
       [ ("default", {| ENGINE := Some "django.db.backends.sqlite3" |}) ] |}.

(** What the function returns for [mysite_settings] under
    [iteration_kept]. *)
Definition mysite_imports : list string :=
  [ "django.contrib.auth"; "polls";
    "django.template.context_processors.request";
    "django.core.cache.backends.locmem"; "mysite.urls";
    "django.contrib.auth.backends"; "django.middleware.common";
    "django.template.backends.django"; "django.db.backends.sqlite3";
    "django.contrib.auth.templatetags";
    "django.contrib.auth.context_processors";
    "polls.templatetags"; "polls.templatetags.poll_extras";
    "polls.context_processors" ].

(** What it returns, under the same interpreter, once MIDDLEWARE is
    [["polls"]]. *)
Definition bare_middleware_imports : list string :=
  [ "django.contrib.auth"; "polls";
    "django.template.context_processors.request";
    "django.core.cache.backends.locmem"; "mysite.urls";
    "django.contrib.auth.backends"; "";
    "django.template.backends.django"; "django.db.backends.sqlite3";
    "django.contrib.auth.templatetags";
    "django.contrib.auth.context_processors";
    "polls.templatetags"; "polls.templatetags.poll_extras";
    "polls.context_processors" ].

Definition with_INSTALLED_APPS (v : option (list string)) (s : Settings)
  : Settings :=
  {| INSTALLED_APPS := v;
     TEMPLATE_CONTEXT_PROCESSORS := TEMPLATE_CONTEXT_PROCESSORS s;
     TEMPLATES := TEMPLATES s;
     CACHES := CACHES s;
     STORAGES := STORAGES s;
     TEMPLATE_LOADERS := TEMPLATE_LOADERS s;
     ROOT_URLCONF := ROOT_URLCONF s;
     AUTHENTICATION_BACKENDS := AUTHENTICATION_BACKENDS s;
     DEFAULT_FILE_STORAGE := DEFAULT_FILE_STORAGE s;
     FILE_UPLOAD_HANDLERS := FILE_UPLOAD_HANDLERS s;
     MIDDLEWARE_CLASSES := MIDDLEWARE_CLASSES s;
     MIDDLEWARE := MIDDLEWARE s;
     DATABASES := DATABASES s |}.

Definition with_ROOT_URLCONF (v : option string) (s : Settings) : Settings :=
  {| INSTALLED_APPS := INSTALLED_APPS s;
     TEMPLATE_CONTEXT_PROCESSORS := TEMPLATE_CONTEXT_PROCESSORS s;
     TEMPLATES := TEMPLATES s;
     CACHES := CACHES s;
     STORAGES := STORAGES s;
     TEMPLATE_LOADERS := TEMPLATE_LOADERS s;
     ROOT_URLCONF := v;
     AUTHENTICATION_BACKENDS := AUTHENTICATION_BACKENDS s;
     DEFAULT_FILE_STORAGE := DEFAULT_FILE_STORAGE s;
     FILE_UPLOAD_HANDLERS := FILE_UPLOAD_HANDLERS s;
     MIDDLEWARE_CLASSES := MIDDLEWARE_CLASSES s;
     MIDDLEWARE := MIDDLEWARE s;
     DATABASES := DATABASES s |}.

Definition with_DEFAULT_FILE_STORAGE (v : option string) (s : Settings)
  : Settings :=
  {| INSTALLED_APPS := INSTALLED_APPS s;
     TEMPLATE_CONTEXT_PROCESSORS := TEMPLATE_CONTEXT_PROCESSORS s;
     TEMPLATES := TEMPLATES s;
     CACHES := CACHES s;
     STORAGES := STORAGES s;
     TEMPLATE_LOADERS := TEMPLATE_LOADERS s;
     ROOT_URLCONF := ROOT_URLCONF s;
     AUTHENTICATION_BACKENDS := AUTHENTICATION_BACKENDS s;
     DEFAULT_FILE_STORAGE := v;
     FILE_UPLOAD_HANDLERS := FILE_UPLOAD_HANDLERS s;
     MIDDLEWARE_CLASSES := MIDDLEWARE_CLASSES s;
     MIDDLEWARE := MIDDLEWARE s;
     DATABASES := DATABASES s |}.

Definition with_MIDDLEWARE (v : option (list string)) (s : Settings)
  : Settings :=
  {| INSTALLED_APPS := INSTALLED_APPS s;
     TEMPLATE_CONTEXT_PROCESSORS := TEMPLATE_CONTEXT_PROCESSORS s;
     TEMPLATES := TEMPLATES s;
     CACHES := CACHES s;
     STORAGES := STORAGES s;
     TEMPLATE_LOADERS := TEMPLATE_LOADERS s;
     ROOT_URLCONF := ROOT_URLCONF s;
     AUTHENTICATION_BACKENDS := AUTHENTICATION_BACKENDS s;
     DEFAULT_FILE_STORAGE := DEFAULT_FILE_STORAGE s;
     FILE_UPLOAD_HANDLERS := FILE_UPLOAD_HANDLERS s;
     MIDDLEWARE_CLASSES := MIDDLEWARE_CLASSES s;
     MIDDLEWARE := v;
     DATABASES := DATABASES s |}.

Definition with_DATABASES (v : option (dict Database)) (s : Settings)
  : Settings :=
  {| INSTALLED_APPS := INSTALLED_APPS s;
     TEMPLATE_CONTEXT_PROCESSORS := TEMPLATE_CONTEXT_PROCESSORS s;
     TEMPLATES := TEMPLATES s;
     CACHES := CACHES s;
     STORAGES := STORAGES s;
     TEMPLATE_LOADERS := TEMPLATE_LOADERS s;
     ROOT_URLCONF := ROOT_URLCONF s;
     AUTHENTICATION_BACKENDS := AUTHENTICATION_BACKENDS s;
     DEFAULT_FILE_STORAGE := DEFAULT_FILE_STORAGE s;
     FILE_UPLOAD_HANDLERS := FILE_UPLOAD_HANDLERS s;
     MIDDLEWARE_CLASSES := MIDDLEWARE_CLASSES s;
     MIDDLEWARE := MIDDLEWARE s;
     DATABASES := v |}.

(** [m] succeeds exactly when [P] holds, and then appends [l] to
    [hiddenimports], whatever it held before. *)
Definition emits (m : M unit) (P : Prop) (l : list string) : Prop :=
  forall h, (P -> m h = Ok (tt, h ++ l)) /\ (forall r, m h = Ok r -> P).

(* ================================================================== *)
(** * The rest of the module *)

(** ** Exceptions of [django_dottedstring_imports] *)

(** [m] raises [e], whatever [hiddenimports] holds. *)
Definition raises {A : Type} (m : M A) (e : exn) : Prop :=
  forall h, m h = Raise e.

(** The statements of lines 64-136, which follow the initialisation of
    [hiddenimports] in [collect]. *)
Definition after_init (collect_submodules : string -> list string)
  (settings : Settings) : M unit :=
  add_TEMPLATE_CONTEXT_PROCESSORS settings ;;
  add_TEMPLATES_context_processors settings ;;
  add_CACHES settings ;;
  scan_STORAGES settings ;;
  add_TEMPLATE_LOADERS settings ;;
  add_ROOT_URLCONF settings ;;
  add_class_names (AUTHENTICATION_BACKENDS settings) ;;
  add_DEFAULT_FILE_STORAGE settings ;;
  add_class_names (FILE_UPLOAD_HANDLERS settings) ;;
  add_class_names (MIDDLEWARE_CLASSES settings) ;;
  add_class_names (MIDDLEWARE settings) ;;
  add_TEMPLATES_backends settings ;;
  add_DATABASES settings ;;
  add_app_modules collect_submodules settings.

Definition absent {A : Type} (entry : option A) : bool :=
  match entry with
  | Some _ => false
  | None => true
  end.

(** What the function does, read off the order of its statements: the
    first unguarded attribute or key that is missing decides the
    exception, and the contributions are returned when none is. *)
Definition outcome (collect_submodules : string -> list string)
  (python : SetIteration) (settings : Settings) : result (list string) :=
  if absent (INSTALLED_APPS settings) then
    Raise (AttributeError "INSTALLED_APPS")
  else if absent (ROOT_URLCONF settings) then
    Raise (AttributeError "ROOT_URLCONF")
  else if existsb (fun templ => absent (template_BACKEND templ))
            (get (TEMPLATES settings) []) then
    Raise (KeyError "BACKEND")
  else
    match DATABASES settings with
    | None => Raise (AttributeError "DATABASES")
    | Some databases =>
        if existsb (fun v => absent (ENGINE v)) (values databases) then
          Raise (KeyError "ENGINE")
        else
          Ok (list_of_set python (contributions collect_submodules settings))
    end.

(** Where a returned module name comes from. *)
Inductive origin (collect_submodules : string -> list string)
  (settings : Settings) (m : string) : Prop :=
| origin_plain :
    plain_module settings m -> origin collect_submodules settings m
| origin_context_processor :
    template_context_processor settings m ->
    origin collect_submodules settings m
| origin_class cl :
    class_name settings cl -> m = _remove_class cl ->
    origin collect_submodules settings m
| origin_app apps app :
    INSTALLED_APPS settings = Some apps -> In app apps ->
    In m (app_modules collect_submodules app) ->
    origin collect_submodules settings m.

(** A settings object with the three unguarded attributes and nothing
    else: no installed application and no database. *)
Definition bare_settings (root_urlconf : string) : Settings :=
  {| INSTALLED_APPS := Some [];
     TEMPLATE_CONTEXT_PROCESSORS := None;
     TEMPLATES := None;
     CACHES := None;
     STORAGES := None;
     TEMPLATE_LOADERS := None;
     ROOT_URLCONF := Some root_urlconf;
     AUTHENTICATION_BACKENDS := None;
     DEFAULT_FILE_STORAGE := None;
     FILE_UPLOAD_HANDLERS := None;
     MIDDLEWARE_CLASSES := None;
     MIDDLEWARE := None;
     DATABASES := Some [] |}.

(* ------------------------------------------------------------------ *)
(** ** The settings module (lines 43-45) *)

(** [os.environ], as the variables it binds. *)
Definition environ : Type := string -> option string.

(** [os.environ[name] = value]. *)
Definition environ_set (name value : string) (env : environ) : environ :=
  fun name' => if String.eqb name' name then Some value else env name'.

Section SettingsModule.

(** [os.path.basename]. *)
Variable basename : string -> string.

(** Lines 43-45; the pair is [settings_module] and [os.environ] after
    the assignment:
<<
    default_settings_module = os.path.basename(django_root_dir) + '.settings'
    settings_module = os.environ.get('DJANGO_SETTINGS_MODULE', default_settings_module)
    os.environ['DJANGO_SETTINGS_MODULE'] = settings_module
>> *)
Definition set_settings_module (django_root_dir : string) (env : environ)
  : string * environ :=
  let default_settings_module :=
    (basename django_root_dir ++ ".settings")%string in
  let settings_module :=
    get (env "DJANGO_SETTINGS_MODULE") default_settings_module in
  (settings_module, environ_set "DJANGO_SETTINGS_MODULE" settings_module env).

End SettingsModule.

(** A [basename] for paths separated by ['/']. *)
Definition posix_basename (p : string) : string := last (split "/" p) "".

(** An environment that binds DJANGO_SETTINGS_MODULE. *)
Definition production_environ : environ :=
  fun name =>
    if String.eqb name "DJANGO_SETTINGS_MODULE"
    then Some "mysite.settings.production"
    else None.

(* ------------------------------------------------------------------ *)
(** ** [django_find_root_dir] *)

(** [x in names]. *)
Definition contains (x : string) (names : list string) : bool :=
  existsb (String.eqb x) names.

(** The test of lines 166 and 173 on the names a directory lists:
<<
    ('settings.py' in files or 'settings' in files) and 'urls.py' in files
>> *)
Definition has_settings_and_urls (files : list string) : bool :=
  (contains "settings.py" files || contains "settings" files)
  && contains "urls.py" files.

Section FileSystem.

(** [os.listdir], [os.path.isdir] and [os.path.join] on the file system
    the packager runs on, and [os.path.dirname(os.path.abspath(p))]. *)
Variable listdir : string -> list string.
Variable isdir : string -> bool.
Variable path_join : string -> string -> string.
Variable dirname_abspath : string -> string.

(** The interpreter, whose sets decide the order of [for f in files]. *)
Variable python : SetIteration.

(** Lines 169-175, with [settings_dir] still [None] on entry; the
    [break] ends the loop at the first hit:
<<
        for f in files:
            if os.path.isdir(os.path.join(manage_dir, f)):
                subfiles = os.listdir(os.path.join(manage_dir, f))
                # Subdirectory contains critical files.
                if ('settings.py' in subfiles or 'settings' in subfiles) and 'urls.py' in subfiles:
                    settings_dir = os.path.join(manage_dir, f)
                    break  # Find the first directory.
>> *)
Fixpoint search_subdirectories (manage_dir : string) (files : list string)
  : option string :=
  match files with
  | [] => None
  | f :: files' =>
      if isdir (path_join manage_dir f) then
        let subfiles := listdir (path_join manage_dir f) in
        if has_settings_and_urls subfiles
        then Some (path_join manage_dir f)
        else search_subdirectories manage_dir files'
      else search_subdirectories manage_dir files'
  end.

(** Lines 159-177, applied to [CONF['main_script']]:
<<
    manage_py = CONF['main_script']
    manage_dir = os.path.dirname(os.path.abspath(manage_py))
    settings_dir = None
    files = set(os.listdir(manage_dir))
    if ('settings.py' in files or 'settings' in files) and 'urls.py' in files:
        settings_dir = manage_dir
    else:
        for f in files: ...
    return settings_dir
>> *)
Definition django_find_root_dir (main_script : string) : option string :=
  let manage_py := main_script in
  let manage_dir := dirname_abspath manage_py in
  let files := list_of_set python (listdir manage_dir) in
  if has_settings_and_urls files
  then Some manage_dir
  else search_subdirectories manage_dir files.

End FileSystem.

(** A subdirectory of [manage_dir] that the loop accepts. *)
Definition candidate (listdir : string -> list string)
  (isdir : string -> bool) (path_join : string -> string -> string)
  (manage_dir f : string) : Prop :=
  In f (listdir manage_dir)
  /\ isdir (path_join manage_dir f) = true
  /\ has_settings_and_urls (listdir (path_join manage_dir f)) = true.

(** A project as [startproject] lays it out: [manage.py] beside the
    package [mysite] and the application [polls]. *)
Definition project_listdir (d : string) : list string :=
  if String.eqb d "/srv/project" then ["manage.py"; "mysite"; "polls"]
  else if String.eqb d "/srv/project/mysite"
       then ["__init__.py"; "settings.py"; "urls.py"; "wsgi.py"]
  else if String.eqb d "/srv/project/polls"
       then ["__init__.py"; "models.py"; "urls.py"; "views.py"]
  else [].

Definition project_isdir (p : string) : bool :=
  String.eqb p "/srv/project" || String.eqb p "/srv/project/mysite"
  || String.eqb p "/srv/project/polls".

Definition posix_join (d f : string) : string := (d ++ "/" ++ f)%string.

Definition project_dirname_abspath (p : string) : string :=
  if String.eqb p "manage.py" then "/srv/project" else p.

(** The layout of Django before 1.4: [settings.py] and [urls.py] beside
    [manage.py]. *)
Definition flat_listdir (d : string) : list string :=
  if String.eqb d "/srv/project"
  then ["manage.py"; "settings.py"; "urls.py"; "polls"]
  else project_listdir d.

(* ================================================================== *)
(** * Strings: [split], [join] and [_remove_class] *)

Lemma split_not_nil sep s : split sep s <> [].
Proof.
  destruct s as [|c s]; simpl; [discriminate|].
  destruct (Ascii.eqb c sep); [discriminate|].
  destruct (split sep s); discriminate.
Qed.

Lemma split_no_dot s : has_dot s = false -> split "." s = [s].
Proof.
  induction s as [|c s IH]; simpl; [reflexivity|].
  intros H. apply orb_false_elim in H as [Hc Hs].
  rewrite Hc, (IH Hs). reflexivity.
Qed.

Lemma split_app sep a b :
  split sep (a ++ String sep b) = split sep a ++ split sep b.
Proof.
  induction a as [|c a IH]; simpl.
  - rewrite Ascii.eqb_refl. reflexivity.
  - destruct (Ascii.eqb c sep).
    + rewrite IH. reflexivity.
    + rewrite IH. destruct (split sep a) as [|w ws] eqn:E.
      * exfalso. exact (split_not_nil _ _ E).
      * reflexivity.
Qed.

Lemma join_cons_char c w ws :
  join "." (String c w :: ws) = String c (join "." (w :: ws)).
Proof. destruct ws; reflexivity. Qed.

Lemma join_split s : join "." (split "." s) = s.
Proof.
  induction s as [|c s IH]; simpl; [reflexivity|].
  destruct (Ascii.eqb c ".") eqn:Ec.
  - apply Ascii.eqb_eq in Ec. subst c.
    destruct (split "." s) as [|w ws] eqn:E.
    + exfalso. exact (split_not_nil _ _ E).
    + unfold join in *. simpl in *. rewrite IH. reflexivity.
  - destruct (split "." s) as [|w ws] eqn:E.
    + exfalso. exact (split_not_nil _ _ E).
    + rewrite join_cons_char, IH. reflexivity.
Qed.

(** A name without a dot has a single component, and nothing is left
    once it is removed. *)
Lemma remove_class_no_dot s : has_dot s = false -> _remove_class s = "".
Proof.
  intros H. unfold _remove_class. rewrite (split_no_dot _ H). reflexivity.
Qed.

(** Stripping [module.Class] gives [module]. *)
Lemma remove_class_module m c :
  has_dot c = false -> _remove_class (m ++ String "." c) = m.
Proof.
  intros H. unfold _remove_class, but_last.
  rewrite split_app, (split_no_dot _ H), removelast_last.
  apply join_split.
Qed.

(** A name with a dot ends in a dot and a last component without one. *)
Lemma last_component s :
  has_dot s = true ->
  exists m c, s = (m ++ String "." c)%string /\ has_dot c = false.
Proof.
  induction s as [|ch s IH]; simpl; [discriminate|].
  destruct (has_dot s) eqn:Hs.
  - intros _. destruct (IH eq_refl) as (m & c & -> & Hc).
    exists (String ch m), c. split; [reflexivity | exact Hc].
  - rewrite orb_false_r. intros Hch. apply Ascii.eqb_eq in Hch. subst ch.
    exists "", s. split; [reflexivity | exact Hs].
Qed.

Lemma append_not_prefix m x : m = (m ++ String "." x)%string -> False.
Proof.
  induction m as [|ch m IH]; simpl; [discriminate|].
  intros H. injection H as H. exact (IH H).
Qed.

(** Stripping changes every name but the empty one. *)
Lemma remove_class_changes s : nonempty s = true -> _remove_class s <> s.
Proof.
  intros Hs E. destruct (has_dot s) eqn:Hdot.
  - destruct (last_component _ Hdot) as (m & c & -> & Hc).
    rewrite remove_class_module in E by exact Hc.
    eapply append_not_prefix, E.
  - rewrite remove_class_no_dot in E by exact Hdot. subst s. discriminate.
Qed.

(* ================================================================== *)
(** * The statements of the body, one by one *)

Lemma emits_weaken m (P Q : Prop) l l' :
  emits m P l -> (P <-> Q) -> l = l' -> emits m Q l'.
Proof.
  intros Hm HPQ <- h. destruct (Hm h) as [Hok Hinv]. split.
  - intros q. apply Hok, HPQ, q.
  - intros r Hr. apply HPQ. exact (Hinv r Hr).
Qed.

(** The appended list only matters when the statement succeeds. *)
Lemma emits_conseq m (P Q : Prop) l l' :
  emits m P l -> (P <-> Q) -> (Q -> l = l') -> emits m Q l'.
Proof.
  intros Hm HPQ Hl h. destruct (Hm h) as [Hok Hinv]. split.
  - intros q. rewrite <- (Hl q). apply Hok, HPQ, q.
  - intros r Hr. apply HPQ. exact (Hinv r Hr).
Qed.

Lemma emits_pass : emits pass True [].
Proof.
  intros h. split; [|trivial].
  intros _. unfold pass, ret. rewrite app_nil_r. reflexivity.
Qed.

Lemma emits_append x : emits (append x) True [x].
Proof. intros h. split; [reflexivity | trivial]. Qed.

Lemma emits_extend l : emits (extend l) True l.
Proof. intros h. split; [reflexivity | trivial]. Qed.

Lemma emits_seq m k (P Q : Prop) l l' :
  emits m P l -> emits k Q l' -> emits (m ;; k) (P /\ Q) (l ++ l').
Proof.
  intros Hm Hk h. split.
  - intros [p q]. unfold bind.
    rewrite (proj1 (Hm h) p), (proj1 (Hk (h ++ l)) q), app_assoc.
    reflexivity.
  - intros r Hr. unfold bind in Hr.
    destruct (m h) as [[[] h1]|e] eqn:E; [|discriminate].
    assert (p : P) by exact (proj2 (Hm h) _ E).
    split; [exact p|].
    exact (proj2 (Hk h1) _ Hr).
Qed.

Lemma emits_for_each {A} (body : A -> M unit) (P : A -> Prop) f xs :
  (forall x, emits (body x) (P x) (f x)) ->
  emits (for_each xs body) (Forall P xs) (flat_map f xs).
Proof.
  intros Hbody. induction xs as [|x xs IH]; simpl.
  - eapply emits_weaken; [apply emits_pass | | reflexivity].
    split; [constructor | trivial].
  - eapply emits_weaken; [exact (emits_seq (Hbody x) IH) | | reflexivity].
    split.
    + intros [p q]. constructor; assumption.
    + intros H. inversion H; subst. split; assumption.
Qed.

Lemma emits_if_hasattr {A} (attr : option A) body (P : A -> Prop) f :
  (forall v, emits (body v) (P v) (f v)) ->
  emits (if_hasattr attr body)
    (match attr with Some v => P v | None => True end)
    (match attr with Some v => f v | None => [] end).
Proof.
  intros Hbody. destruct attr as [v|]; simpl.
  - apply Hbody.
  - apply emits_pass.
Qed.

Lemma emits_if_truthy v body f :
  (forall s, emits (body s) True (f s)) ->
  emits (if_truthy v body) True
    (match v with
     | Some s => if nonempty s then f s else []
     | None => []
     end).
Proof.
  intros Hbody. destruct v as [s|]; simpl; [|apply emits_pass].
  destruct (nonempty s); [apply Hbody | apply emits_pass].
Qed.

Lemma emits_getattr {A} name (attr : option A) k (P : A -> Prop) f :
  (forall v, emits (k v) (P v) (f v)) ->
  emits (bind (getattr name attr) k)
    (match attr with Some v => P v | None => False end)
    (match attr with Some v => f v | None => [] end).
Proof.
  intros Hk. destruct attr as [v|]; simpl.
  - intros h. exact (Hk v h).
  - intros h. split; [intros [] | discriminate].
Qed.

Lemma emits_getitem {A} key (entry : option A) k (P : A -> Prop) f :
  (forall v, emits (k v) (P v) (f v)) ->
  emits (bind (getitem key entry) k)
    (match entry with Some v => P v | None => False end)
    (match entry with Some v => f v | None => [] end).
Proof.
  intros Hk. destruct entry as [v|]; simpl.
  - intros h. exact (Hk v h).
  - intros h. split; [intros [] | discriminate].
Qed.

Lemma Forall_True {A} (l : list A) : Forall (fun _ => True) l.
Proof. induction l; constructor; trivial. Qed.

Lemma flat_map_singleton {A B} (g : A -> B) l :
  flat_map (fun x => [g x]) l = map g l.
Proof. induction l as [|x l IH]; simpl; [|rewrite IH]; reflexivity. Qed.

(** A loop whose body cannot raise. *)
Lemma emits_for_each_total {A} (body : A -> M unit) f xs :
  (forall x, emits (body x) True (f x)) ->
  emits (for_each xs body) True (flat_map f xs).
Proof.
  intros Hbody.
  eapply emits_weaken;
    [apply emits_for_each with (P := fun _ => True); exact Hbody
    | | reflexivity].
  split; [trivial | intros _; apply Forall_True].
Qed.

Lemma add_TEMPLATE_CONTEXT_PROCESSORS_emits s :
  emits (add_TEMPLATE_CONTEXT_PROCESSORS s) True
    (get (TEMPLATE_CONTEXT_PROCESSORS s) []).
Proof.
  unfold add_TEMPLATE_CONTEXT_PROCESSORS.
  eapply emits_weaken;
    [apply emits_if_hasattr with (P := fun _ => True) (f := fun l => l);
     intros l; apply emits_extend | | ];
    destruct (TEMPLATE_CONTEXT_PROCESSORS s); simpl; tauto.
Qed.

Lemma add_TEMPLATE_LOADERS_emits s :
  emits (add_TEMPLATE_LOADERS s) True (get (TEMPLATE_LOADERS s) []).
Proof.
  unfold add_TEMPLATE_LOADERS.
  eapply emits_weaken;
    [apply emits_if_hasattr with (P := fun _ => True) (f := fun l => l);
     intros l; apply emits_extend | | ];
    destruct (TEMPLATE_LOADERS s); simpl; tauto.
Qed.

Lemma add_TEMPLATES_context_processors_emits s :
  emits (add_TEMPLATES_context_processors s) True
    (flat_map template_context_processors (get (TEMPLATES s) [])).
Proof.
  unfold add_TEMPLATES_context_processors.
  eapply emits_weaken.
  - apply emits_if_hasattr with
      (P := fun _ => True)
      (f := fun ts => flat_map template_context_processors ts).
    intros ts. apply emits_for_each_total. intros t. apply emits_extend.
  - destruct (TEMPLATES s); tauto.
  - destruct (TEMPLATES s); reflexivity.
Qed.

Lemma add_CACHES_emits s :
  emits (add_CACHES s) True
    (flat_map cache_classes (values (get (CACHES s) []))).
Proof.
  unfold add_CACHES.
  eapply emits_weaken.
  - apply emits_if_hasattr with
      (P := fun _ => True)
      (f := fun caches => flat_map cache_classes (values caches)).
    intros caches. apply emits_for_each_total. intros c.
    eapply emits_weaken.
    + apply emits_seq.
      * apply emits_if_truthy with (f := fun b => [_remove_class b]).
        intros b. apply emits_append.
      * apply emits_if_truthy with (f := fun b => [_remove_class b]).
        intros b. apply emits_append.
    + tauto.
    + reflexivity.
  - destruct (CACHES s); tauto.
  - destruct (CACHES s); reflexivity.
Qed.

(** The STORAGES loop leaves [hiddenimports] as it found it. *)
Lemma scan_STORAGES_emits s : emits (scan_STORAGES s) True [].
Proof.
  unfold scan_STORAGES.
  eapply emits_weaken.
  - apply emits_if_hasattr with
      (P := fun _ => True)
      (f := fun storages : dict Storage =>
              flat_map (fun _ : Storage => @nil string) (values storages)).
    intros storages. apply emits_for_each_total. intros st.
    eapply emits_weaken.
    + apply emits_if_truthy with (f := fun _ => @nil string).
      intros b. apply emits_pass.
    + tauto.
    + destruct (get_None (storage_BACKEND st)) as [b|]; [|reflexivity].
      destruct (nonempty b); reflexivity.
  - destruct (STORAGES s); tauto.
  - destruct (STORAGES s) as [storages|]; [|reflexivity].
    induction (values storages); simpl; auto.
Qed.

Lemma add_ROOT_URLCONF_emits s :
  emits (add_ROOT_URLCONF s) (ROOT_URLCONF s <> None)
    (get (option_map (fun root => [root]) (ROOT_URLCONF s)) []).
Proof.
  unfold add_ROOT_URLCONF.
  eapply emits_weaken.
  - apply emits_getattr with (P := fun _ => True) (f := fun root => [root]).
    intros root. apply emits_extend.
  - destruct (ROOT_URLCONF s); split; try tauto; discriminate.
  - destruct (ROOT_URLCONF s); reflexivity.
Qed.

Lemma add_class_names_emits attr :
  emits (add_class_names attr) True (class_modules attr).
Proof.
  unfold add_class_names, class_modules.
  eapply emits_weaken.
  - apply emits_if_hasattr with
      (P := fun _ => True) (f := fun names => map _remove_class names).
    intros names. rewrite <- flat_map_singleton.
    apply emits_for_each_total. intros cl. apply emits_append.
  - destruct attr; tauto.
  - destruct attr; reflexivity.
Qed.

Lemma add_DEFAULT_FILE_STORAGE_emits s :
  emits (add_DEFAULT_FILE_STORAGE s) True (stripped (DEFAULT_FILE_STORAGE s)).
Proof.
  unfold add_DEFAULT_FILE_STORAGE, stripped, get_None.
  apply emits_if_truthy with (f := fun cl => [_remove_class cl]).
  intros cl. apply emits_append.
Qed.

(** [hasattr(templ, 'OPTIONS')] is false for every dictionary. *)
Lemma dict_hasattr_OPTIONS : dict_hasattr "OPTIONS" = false.
Proof. reflexivity. Qed.

(** One round of the loop of lines 116-125: the stripped BACKEND and
    nothing else. *)
Lemma templ_body_emits (templ : Template) :
  emits
    (backend <- getitem "BACKEND" (template_BACKEND templ) ;;
     let backend := _remove_class backend in
     append backend ;;
     if dict_hasattr "OPTIONS" then
       _ <- getitem "OPTIONS" (template_OPTIONS templ) ;;
       if dict_hasattr "context_processors" then
         options <- getitem "OPTIONS" (template_OPTIONS templ) ;;
         mods <- getitem "context_processors" (context_processors options) ;;
         let mods := map _remove_class mods in
         extend mods
       else pass
     else pass)
    (template_BACKEND templ <> None)
    [template_backend_module templ].
Proof.
  rewrite dict_hasattr_OPTIONS.
  eapply emits_conseq.
  - apply emits_getitem with
      (P := fun _ => True /\ True)
      (f := fun b => [_remove_class b] ++ []).
    intros b. cbv zeta.
    apply emits_seq; [apply emits_append | apply emits_pass].
  - destruct (template_BACKEND templ); split; try tauto; discriminate.
  - unfold template_backend_module.
    destruct (template_BACKEND templ) as [b|]; [reflexivity | tauto].
Qed.

Lemma add_TEMPLATES_backends_emits s :
  emits (add_TEMPLATES_backends s)
    (Forall (fun t => template_BACKEND t <> None) (get (TEMPLATES s) []))
    (map template_backend_module (get (TEMPLATES s) [])).
Proof.
  unfold add_TEMPLATES_backends.
  eapply emits_weaken.
  - apply emits_if_hasattr with
      (P := fun ts => Forall (fun t => template_BACKEND t <> None) ts)
      (f := fun ts => map template_backend_module ts).
    intros ts. rewrite <- flat_map_singleton.
    apply emits_for_each. exact templ_body_emits.
  - destruct (TEMPLATES s); simpl; [tauto|].
    split; [constructor | trivial].
  - destruct (TEMPLATES s); reflexivity.
Qed.

Lemma add_DATABASES_emits s :
  emits (add_DATABASES s)
    (DATABASES s <> None
     /\ Forall (fun v => ENGINE v <> None) (values (get (DATABASES s) [])))
    (map database_engine (values (get (DATABASES s) []))).
Proof.
  unfold add_DATABASES.
  eapply emits_weaken.
  - apply emits_getattr with
      (P := fun dbs => Forall (fun v => ENGINE v <> None) (values dbs))
      (f := fun dbs => map database_engine (values dbs)).
    intros dbs. rewrite <- flat_map_singleton.
    apply emits_for_each. intros v.
    eapply emits_conseq.
    + apply emits_getitem with (P := fun _ => True) (f := fun e => [e]).
      intros e. apply emits_append.
    + destruct (ENGINE v); split; try tauto; discriminate.
    + unfold database_engine. destruct (ENGINE v); [reflexivity | tauto].
  - destruct (DATABASES s); simpl; [|tauto].
    split; [intros H; split; [discriminate | exact H] | tauto].
  - destruct (DATABASES s); reflexivity.
Qed.

Lemma add_app_modules_emits collect_submodules s :
  emits (add_app_modules collect_submodules s)
    (INSTALLED_APPS s <> None)
    (flat_map (app_modules collect_submodules) (get (INSTALLED_APPS s) [])).
Proof.
  unfold add_app_modules.
  eapply emits_weaken.
  - apply emits_getattr with
      (P := fun _ => True)
      (f := fun apps => flat_map (app_modules collect_submodules) apps).
    intros apps. apply emits_for_each_total. intros app. cbv zeta.
    unfold app_modules.
    eapply emits_weaken.
    + apply emits_seq; [apply emits_append|].
      apply emits_seq; [apply emits_extend | apply emits_append].
    + tauto.
    + reflexivity.
  - destruct (INSTALLED_APPS s); split; try tauto; discriminate.
  - destruct (INSTALLED_APPS s); reflexivity.
Qed.

(* ================================================================== *)
(** * The whole function *)

(** Lines 64-136, after [hiddenimports] has been initialised. *)
Lemma after_init_emits collect_submodules s :
  emits
    (add_TEMPLATE_CONTEXT_PROCESSORS s ;;
     add_TEMPLATES_context_processors s ;;
     add_CACHES s ;;
     scan_STORAGES s ;;
     add_TEMPLATE_LOADERS s ;;
     add_ROOT_URLCONF s ;;
     add_class_names (AUTHENTICATION_BACKENDS s) ;;
     add_DEFAULT_FILE_STORAGE s ;;
     add_class_names (FILE_UPLOAD_HANDLERS s) ;;
     add_class_names (MIDDLEWARE_CLASSES s) ;;
     add_class_names (MIDDLEWARE s) ;;
     add_TEMPLATES_backends s ;;
     add_DATABASES s ;;
     add_app_modules collect_submodules s)
    (required_present s)
    (get (TEMPLATE_CONTEXT_PROCESSORS s) []
     ++ flat_map template_context_processors (get (TEMPLATES s) [])
     ++ flat_map cache_classes (values (get (CACHES s) []))
     ++ get (TEMPLATE_LOADERS s) []
     ++ get (option_map (fun root => [root]) (ROOT_URLCONF s)) []
     ++ class_modules (AUTHENTICATION_BACKENDS s)
     ++ stripped (DEFAULT_FILE_STORAGE s)
     ++ class_modules (FILE_UPLOAD_HANDLERS s)
     ++ class_modules (MIDDLEWARE_CLASSES s)
     ++ class_modules (MIDDLEWARE s)
     ++ map template_backend_module (get (TEMPLATES s) [])
     ++ map database_engine (values (get (DATABASES s) []))
     ++ flat_map (app_modules collect_submodules)
          (get (INSTALLED_APPS s) [])).
Proof.
  eapply emits_weaken.
  - apply emits_seq; [apply add_TEMPLATE_CONTEXT_PROCESSORS_emits|].
    apply emits_seq; [apply add_TEMPLATES_context_processors_emits|].
    apply emits_seq; [apply add_CACHES_emits|].
    apply emits_seq; [apply scan_STORAGES_emits|].
    apply emits_seq; [apply add_TEMPLATE_LOADERS_emits|].
    apply emits_seq; [apply add_ROOT_URLCONF_emits|].
    apply emits_seq; [apply add_class_names_emits|].
    apply emits_seq; [apply add_DEFAULT_FILE_STORAGE_emits|].
    apply emits_seq; [apply add_class_names_emits|].
    apply emits_seq; [apply add_class_names_emits|].
    apply emits_seq; [apply add_class_names_emits|].
    apply emits_seq; [apply add_TEMPLATES_backends_emits|].
    apply emits_seq; [apply add_DATABASES_emits|].
    apply add_app_modules_emits.
  - unfold required_present. tauto.
  - reflexivity.
Qed.

(** [collect] returns exactly when the unguarded attributes and keys are
    present, and [hiddenimports] then holds the concatenated
    contributions. *)
Lemma collect_spec collect_submodules s :
  (required_present s ->
   collect collect_submodules s [] = Ok (tt, contributions collect_submodules s))
  /\ (forall r, collect collect_submodules s [] = Ok r ->
      required_present s /\ r = (tt, contributions collect_submodules s)).
Proof.
  pose proof (after_init_emits collect_submodules s) as Hrest.
  unfold collect, contributions.
  set (rest := bind (add_TEMPLATE_CONTEXT_PROCESSORS s) _) in *.
  set (l := get (TEMPLATE_CONTEXT_PROCESSORS s) [] ++ _) in *.
  change ((init_INSTALLED_APPS s ;; rest) [])
    with (match init_INSTALLED_APPS s [] with
          | Ok (_, h') => rest h'
          | Raise e => Raise e
          end).
  unfold init_INSTALLED_APPS, required_present.
  destruct (INSTALLED_APPS s) as [apps|] eqn:Happs.
  - change ((apps0 <- getattr "INSTALLED_APPS" (Some apps) ;; assign apps0) [])
      with (@Ok (unit * list string) (tt, apps)).
    cbv beta iota. destruct (Hrest apps) as [Hok Hinv]. split.
    + intros Hreq. apply Hok. unfold required_present. rewrite Happs.
      exact Hreq.
    + intros r Hr. pose proof (Hinv r Hr) as Hreq.
      rewrite (Hok Hreq) in Hr. injection Hr as <-.
      unfold required_present in Hreq. rewrite Happs in Hreq.
      split; [exact Hreq | reflexivity].
  - split.
    + intros [H _]. contradiction.
    + discriminate.
Qed.

Lemma imports_unfold collect_submodules python s :
  django_dottedstring_imports collect_submodules python s =
  match collect collect_submodules s [] with
  | Ok (_, h) => Ok (list_of_set python h)
  | Raise e => Raise e
  end.
Proof.
  unfold django_dottedstring_imports, run, deduplicate, bind, read, assign.
  destruct (collect collect_submodules s []) as [[[] h]|e]; reflexivity.
Qed.

(** The function returns exactly when [required_present] holds, and then
    returns the contributions as the interpreter's set lists them. *)
Lemma imports_spec collect_submodules python s out :
  django_dottedstring_imports collect_submodules python s = Ok out <->
  required_present s
  /\ out = list_of_set python (contributions collect_submodules s).
Proof.
  rewrite imports_unfold.
  destruct (collect_spec collect_submodules s) as [Hok Hinv]. split.
  - destruct (collect collect_submodules s []) as [[[] h]|e] eqn:E;
      [|discriminate].
    intros H. injection H as <-.
    destruct (Hinv _ eq_refl) as [Hreq Hh]. injection Hh as ->.
    split; [exact Hreq | reflexivity].
  - intros [Hreq ->]. rewrite (Hok Hreq). reflexivity.
Qed.

Lemma imports_In collect_submodules python s out x :
  django_dottedstring_imports collect_submodules python s = Ok out ->
  (In x out <-> In x (contributions collect_submodules s)).
Proof.
  intros H. apply imports_spec in H as [_ ->]. apply list_of_set_In.
Qed.

Lemma mysite_returns :
  django_dottedstring_imports polls_submodules iteration_kept mysite_settings
  = Ok mysite_imports.
Proof. vm_compute. reflexivity. Qed.

Lemma mysite_required_present : required_present mysite_settings.
Proof.
  unfold required_present. simpl.
  repeat split; try discriminate; repeat constructor; discriminate.
Qed.

(* ------------------------------------------------------------------ *)
(** ** Membership in the contributions *)

Lemma In_stripped v cl :
  v = Some cl -> nonempty cl = true -> In (_remove_class cl) (stripped v).
Proof. intros -> H. simpl. rewrite H. left. reflexivity. Qed.

Lemma In_class_modules attr l cl :
  attr = Some l -> In cl l -> In (_remove_class cl) (class_modules attr).
Proof. intros -> H. unfold class_modules. simpl. apply in_map, H. Qed.

(** Closes [In x (contributions ...)] from a hypothesis that places [x]
    in one of the concatenated lists. *)
Ltac in_contributions :=
  unfold contributions; rewrite !in_app_iff; tauto.

Lemma class_name_contributes collect_submodules s cl :
  class_name s cl ->
  In (_remove_class cl) (contributions collect_submodules s).
Proof.
  intros [l E H | l E H | l E H | l E H | E H
         | caches alias cache E Hc Eb H
         | caches alias cache options E Hc Eo Ecl H
         | templates templ E Ht Eb].
  - pose proof (In_class_modules cl E H). in_contributions.
  - pose proof (In_class_modules cl E H). in_contributions.
  - pose proof (In_class_modules cl E H). in_contributions.
  - pose proof (In_class_modules cl E H). in_contributions.
  - pose proof (In_stripped E H). in_contributions.
  - assert (In (_remove_class cl)
              (flat_map cache_classes (values (get (CACHES s) [])))).
    { rewrite E. simpl. apply in_flat_map. exists cache. split.
      - unfold values. change cache with (snd (alias, cache)).
        apply in_map, Hc.
      - unfold cache_classes. apply in_or_app. left.
        exact (In_stripped Eb H). }
    in_contributions.
  - assert (In (_remove_class cl)
              (flat_map cache_classes (values (get (CACHES s) [])))).
    { rewrite E. simpl. apply in_flat_map. exists cache. split.
      - unfold values. change cache with (snd (alias, cache)).
        apply in_map, Hc.
      - unfold cache_classes. apply in_or_app. right.
        rewrite Eo. simpl get. exact (In_stripped Ecl H). }
    in_contributions.
  - assert (In (_remove_class cl)
              (map template_backend_module (get (TEMPLATES s) []))).
    { rewrite E. simpl. apply in_map_iff. exists templ. split; [|exact Ht].
      unfold template_backend_module. rewrite Eb. reflexivity. }
    in_contributions.
Qed.

Lemma plain_module_contributes collect_submodules s m :
  plain_module s m -> In m (contributions collect_submodules s).
Proof.
  intros [l E H | l E H | l E H | E | databases alias v E Hv Ee].
  - assert (In m (get (INSTALLED_APPS s) [])) by (rewrite E; exact H).
    in_contributions.
  - assert (In m (get (TEMPLATE_CONTEXT_PROCESSORS s) []))
      by (rewrite E; exact H).
    in_contributions.
  - assert (In m (get (TEMPLATE_LOADERS s) [])) by (rewrite E; exact H).
    in_contributions.
  - assert (In m (get (option_map (fun root => [root]) (ROOT_URLCONF s)) []))
      by (rewrite E; left; reflexivity).
    in_contributions.
  - assert (In m (map database_engine (values (get (DATABASES s) [])))).
    { rewrite E. simpl. apply in_map_iff. exists v. split.
      - unfold database_engine. rewrite Ee. reflexivity.
      - unfold values. change v with (snd (alias, v)). apply in_map, Hv. }
    in_contributions.
Qed.

Lemma context_processor_contributes collect_submodules s p :
  template_context_processor s p ->
  In p (contributions collect_submodules s).
Proof.
  intros (templates & templ & options & l & E & Ht & Eo & El & H).
  assert (In p (flat_map template_context_processors (get (TEMPLATES s) []))).
  { rewrite E. simpl. apply in_flat_map. exists templ. split; [exact Ht|].
    unfold template_context_processors. rewrite Eo. simpl. rewrite El.
    exact H. }
  in_contributions.
Qed.

Lemma app_modules_contribute collect_submodules s apps app m :
  INSTALLED_APPS s = Some apps -> In app apps ->
  In m (app_modules collect_submodules app) ->
  In m (contributions collect_submodules s).
Proof.
  intros E Happ Hm.
  assert (In m (flat_map (app_modules collect_submodules)
                  (get (INSTALLED_APPS s) []))).
  { rewrite E. simpl. apply in_flat_map. exists app. split; assumption. }
  in_contributions.
Qed.

(* ================================================================== *)
(** * Properties of the returned list *)

Unset Implicit Arguments.

(** C1: whatever the settings, the collected submodules and the
    interpreter, a list returned by [django_dottedstring_imports] holds
    every module name at most once. *)
Theorem imports_NoDup collect_submodules python s out :
  django_dottedstring_imports collect_submodules python s = Ok out ->
  NoDup out.
Proof.
  intros H. apply imports_spec in H as [_ ->]. apply list_of_set_NoDup.
Qed.

Lemma imports_NoDup_witness :
  django_dottedstring_imports polls_submodules iteration_kept mysite_settings
  = Ok mysite_imports
  /\ NoDup mysite_imports.
Proof.
  split; [vm_compute; reflexivity|].
  apply (imports_NoDup polls_submodules iteration_kept mysite_settings).
  vm_compute. reflexivity.
Defined.

(** C4, as the code has it: every class name the function strips (each
    entry of AUTHENTICATION_BACKENDS, FILE_UPLOAD_HANDLERS,
    MIDDLEWARE_CLASSES and MIDDLEWARE, each TEMPLATES entry's BACKEND,
    and each non-empty DEFAULT_FILE_STORAGE, CACHES BACKEND and CACHES
    OPTIONS.CLIENT_CLASS) puts [_remove_class] of itself into the
    returned list; [_remove_class] of [module.Class], where [Class] has
    no dot, is [module]; and the stripped form differs from a non-empty
    class name. *)
Theorem class_names_stripped collect_submodules python s out cl :
  django_dottedstring_imports collect_submodules python s = Ok out ->
  class_name s cl ->
  In (_remove_class cl) out
  /\ (forall m c, cl = (m ++ String "." c)%string -> has_dot c = false ->
      _remove_class cl = m)
  /\ (nonempty cl = true -> _remove_class cl <> cl).
Proof.
  intros Hout Hcl. split; [|split].
  - apply (imports_In _ _ _ _ Hout). apply class_name_contributes, Hcl.
  - intros m c -> Hc. apply remove_class_module, Hc.
  - apply remove_class_changes.
Qed.

Lemma class_names_stripped_witness :
  In "django.contrib.auth.backends" mysite_imports
  /\ In "django.core.cache.backends.locmem" mysite_imports.
Proof.
  split.
  - refine (proj1 (class_names_stripped polls_submodules iteration_kept
                     mysite_settings mysite_imports
                     "django.contrib.auth.backends.ModelBackend" _ _)).
    + vm_compute. reflexivity.
    + eapply cn_AUTHENTICATION_BACKENDS; [reflexivity | left; reflexivity].
  - refine (proj1 (class_names_stripped polls_submodules iteration_kept
                     mysite_settings mysite_imports
                     "django.core.cache.backends.locmem.LocMemCache" _ _)).
    + vm_compute. reflexivity.
    + eapply cn_CACHES_BACKEND;
        [reflexivity | left; reflexivity | reflexivity | reflexivity].
Defined.

(** C4 as stated fails on an empty value: with DEFAULT_FILE_STORAGE set
    to the empty string, the [if cl:] guard of line 100 skips it, and the
    stripped form of the value (the empty string) is not in the result. *)
Lemma empty_DEFAULT_FILE_STORAGE_skipped :
  DEFAULT_FILE_STORAGE (with_DEFAULT_FILE_STORAGE (Some "") mysite_settings)
  = Some ""
  /\ django_dottedstring_imports polls_submodules iteration_kept
       (with_DEFAULT_FILE_STORAGE (Some "") mysite_settings)
     = Ok mysite_imports
  /\ ~ In (_remove_class "") mysite_imports.
Proof.
  split; [reflexivity|]. split; [vm_compute; reflexivity|].
  simpl. intros H.
  repeat (destruct H as [H|H]; [discriminate H|]). exact H.
Qed.

(** C5: every entry of INSTALLED_APPS, of TEMPLATE_CONTEXT_PROCESSORS and
    of TEMPLATE_LOADERS (when present), the value of ROOT_URLCONF and the
    ENGINE of every DATABASES entry is in the returned list as it
    stands. *)
Theorem plain_modules_verbatim collect_submodules python s out m :
  django_dottedstring_imports collect_submodules python s = Ok out ->
  plain_module s m ->
  In m out.
Proof.
  intros Hout Hm. apply (imports_In _ _ _ _ Hout).
  apply plain_module_contributes, Hm.
Qed.

Lemma plain_modules_verbatim_witness :
  In "mysite.urls" mysite_imports
  /\ In "django.db.backends.sqlite3" mysite_imports
  /\ In "polls" mysite_imports.
Proof.
  assert (Hout :
    django_dottedstring_imports polls_submodules iteration_kept
      mysite_settings = Ok mysite_imports) by (vm_compute; reflexivity).
  repeat split.
  - apply (plain_modules_verbatim _ _ _ _ _ Hout).
    apply pm_ROOT_URLCONF. reflexivity.
  - apply (plain_modules_verbatim _ _ _ _ _ Hout).
    eapply pm_DATABASES; [reflexivity | left; reflexivity | reflexivity].
  - apply (plain_modules_verbatim _ _ _ _ _ Hout).
    eapply pm_INSTALLED_APPS; [reflexivity | right; left; reflexivity].
Defined.

(** C6: for every entry [app] of INSTALLED_APPS the returned list holds
    [app + '.templatetags'], [app + '.context_processors'] and every
    name [collect_submodules] returns for [app + '.templatetags']. *)
Theorem app_modules_included collect_submodules python s out apps app :
  django_dottedstring_imports collect_submodules python s = Ok out ->
  INSTALLED_APPS s = Some apps ->
  In app apps ->
  In (app ++ ".templatetags")%string out
  /\ In (app ++ ".context_processors")%string out
  /\ (forall m, In m (collect_submodules (app ++ ".templatetags")%string) ->
      In m out).
Proof.
  intros Hout E Happ.
  assert (Hin : forall m, In m (app_modules collect_submodules app) ->
                          In m out).
  { intros m Hm. apply (imports_In _ _ _ _ Hout).
    eapply app_modules_contribute; eassumption. }
  unfold app_modules in Hin. repeat split.
  - apply Hin. left. reflexivity.
  - apply Hin. apply in_or_app. right. apply in_or_app. right. left.
    reflexivity.
  - intros m Hm. apply Hin. apply in_or_app. right. apply in_or_app. left.
    exact Hm.
Qed.

Lemma app_modules_included_witness :
  In "polls.templatetags" mysite_imports
  /\ In "polls.context_processors" mysite_imports
  /\ (forall m, In m (polls_submodules "polls.templatetags") ->
      In m mysite_imports).
Proof.
  apply (app_modules_included polls_submodules iteration_kept
           mysite_settings mysite_imports
           ["django.contrib.auth"; "polls"] "polls").
  - vm_compute. reflexivity.
  - reflexivity.
  - right. left. reflexivity.
Defined.

(** C7: the returned list is the deduplication of the concatenated
    per-attribute contributions and nothing else: it has no duplicates,
    it has exactly the elements of [contributions], it is a permutation
    of that list with its duplicates removed, and it is the listing of
    the set built from it. *)
Theorem output_is_deduplication collect_submodules python s out :
  django_dottedstring_imports collect_submodules python s = Ok out ->
  out = list_of_set python (contributions collect_submodules s)
  /\ NoDup out
  /\ (forall x, In x out <-> In x (contributions collect_submodules s))
  /\ Permutation out (nodup string_dec (contributions collect_submodules s)).
Proof.
  intros Hout.
  pose proof (Hnodup := list_of_set_NoDup python
                (contributions collect_submodules s)).
  apply imports_spec in Hout as [_ ->].
  repeat split; try assumption; try apply list_of_set_In.
  apply NoDup_Permutation; [assumption | apply NoDup_nodup |].
  intros x. rewrite list_of_set_In, nodup_In. reflexivity.
Qed.

Lemma output_is_deduplication_witness :
  mysite_imports
  = list_of_set iteration_kept (contributions polls_submodules mysite_settings)
  /\ NoDup mysite_imports
  /\ (forall x, In x mysite_imports <->
                In x (contributions polls_submodules mysite_settings))
  /\ Permutation mysite_imports
       (nodup string_dec (contributions polls_submodules mysite_settings)).
Proof.
  apply (output_is_deduplication polls_submodules iteration_kept
           mysite_settings mysite_imports).
  vm_compute. reflexivity.
Defined.

(* ------------------------------------------------------------------ *)
(** ** Settings that do not matter, and settings that must be there *)

Lemma bind_ext {A B} (m m' : M A) (k k' : A -> M B) h :
  m h = m' h ->
  (forall a h', k a h' = k' a h') ->
  bind m k h = bind m' k' h.
Proof.
  intros Hm Hk. unfold bind. rewrite Hm.
  destruct (m' h) as [[a h']|e]; [apply Hk | reflexivity].
Qed.

Lemma scan_STORAGES_skip s h : scan_STORAGES s h = Ok (tt, h).
Proof.
  rewrite (proj1 (scan_STORAGES_emits s h) I), app_nil_r. reflexivity.
Qed.

Lemma if_hasattr_or_empty {A} (attr : option (list A)) body h :
  body [] h = Ok (tt, h) ->
  if_hasattr (or_empty attr) body h = if_hasattr attr body h.
Proof.
  intros Hbody. destruct attr as [l|]; [reflexivity|]. exact Hbody.
Qed.

Lemma extend_nil h : extend [] h = Ok (tt, h).
Proof. unfold extend. rewrite app_nil_r. reflexivity. Qed.

(** Steps through the statements of [collect] on two settings objects,
    closing each by conversion or by one of the given facts. *)
Ltac same_statements tac :=
  repeat (apply bind_ext; [first [reflexivity | tac] | intros [] ?]);
  first [reflexivity | tac].

Lemma collect_with_STORAGES collect_submodules st1 st2 s h :
  collect collect_submodules (with_STORAGES st1 s) h
  = collect collect_submodules (with_STORAGES st2 s) h.
Proof.
  unfold collect.
  same_statements ltac:(rewrite !scan_STORAGES_skip; reflexivity).
Qed.

Lemma collect_with_empty_defaults collect_submodules s h :
  collect collect_submodules (with_empty_defaults s) h
  = collect collect_submodules s h.
Proof.
  unfold collect.
  same_statements
    ltac:(first
      [ rewrite !scan_STORAGES_skip; reflexivity
      | apply if_hasattr_or_empty; first [apply extend_nil | reflexivity] ]).
Qed.

(** C8: two settings objects that differ only in STORAGES, whether it is
    present or what it holds, give the same result (the same list, or
    the same exception).  Two such objects are [with_STORAGES st1 s] and
    [with_STORAGES st2 s] for the attributes [s] they share. *)
Theorem STORAGES_ignored collect_submodules python s st1 st2 :
  django_dottedstring_imports collect_submodules python (with_STORAGES st1 s)
  = django_dottedstring_imports collect_submodules python (with_STORAGES st2 s).
Proof.
  rewrite !imports_unfold, (collect_with_STORAGES _ st1 st2). reflexivity.
Qed.

(** C2, as the code has it: an attribute read under a [hasattr] guard
    (or, for DEFAULT_FILE_STORAGE, with a default) may be absent, and its
    absence is the same as its being empty; the function returns a list,
    made of the contributions of the attributes that are there, whenever
    INSTALLED_APPS, ROOT_URLCONF and DATABASES are present, every
    TEMPLATES entry has a BACKEND and every DATABASES entry an ENGINE. *)
Theorem guarded_attributes_skipped collect_submodules python s :
  django_dottedstring_imports collect_submodules python (with_empty_defaults s)
  = django_dottedstring_imports collect_submodules python s
  /\ (required_present s ->
      exists out,
        django_dottedstring_imports collect_submodules python s = Ok out
        /\ forall x, In x out <-> In x (contributions collect_submodules s)).
Proof.
  split.
  - rewrite !imports_unfold, collect_with_empty_defaults. reflexivity.
  - intros Hreq.
    exists (list_of_set python (contributions collect_submodules s)).
    split; [apply imports_spec; split; [exact Hreq | reflexivity]|].
    intros x. apply list_of_set_In.
Qed.

Lemma guarded_attributes_skipped_witness :
  exists out,
    django_dottedstring_imports polls_submodules iteration_kept
      mysite_settings = Ok out
    /\ forall x, In x out <-> In x (contributions polls_submodules mysite_settings).
Proof.
  apply (proj2 (guarded_attributes_skipped polls_submodules iteration_kept
                  mysite_settings)).
  unfold required_present. simpl.
  repeat split; try discriminate; repeat constructor; discriminate.
Defined.

(** C2 as stated fails: ROOT_URLCONF, INSTALLED_APPS and DATABASES are
    read without a guard, and the function raises [AttributeError] when
    one of them is absent. *)
Lemma absent_unguarded_attribute_raises :
  django_dottedstring_imports polls_submodules iteration_kept
    (with_ROOT_URLCONF None mysite_settings)
  = Raise (AttributeError "ROOT_URLCONF")
  /\ django_dottedstring_imports polls_submodules iteration_kept
       (with_INSTALLED_APPS None mysite_settings)
     = Raise (AttributeError "INSTALLED_APPS")
  /\ django_dottedstring_imports polls_submodules iteration_kept
       (with_DATABASES None mysite_settings)
     = Raise (AttributeError "DATABASES").
Proof. repeat split; vm_compute; reflexivity. Qed.

(* ------------------------------------------------------------------ *)
(** ** Order of the result *)

(** C3, as the code has it: on fixed settings and a fixed search path,
    any two interpreters agree on whether the function returns or which
    exception it raises, and two returned lists have the same elements,
    each once (they are permutations of each other); they are the same
    list when the two interpreters iterate sets in the same order. *)
Theorem same_elements_under_any_interpreter
  collect_submodules python1 python2 s :
  (forall out1,
     django_dottedstring_imports collect_submodules python1 s = Ok out1 ->
     exists out2,
       django_dottedstring_imports collect_submodules python2 s = Ok out2
       /\ Permutation out1 out2
       /\ ((forall l, list_of_set python1 l = list_of_set python2 l) ->
           out1 = out2))
  /\ (forall e,
        django_dottedstring_imports collect_submodules python1 s = Raise e ->
        django_dottedstring_imports collect_submodules python2 s = Raise e).
Proof.
  rewrite !imports_unfold.
  destruct (collect collect_submodules s []) as [[[] h]|e0]; split.
  - intros out1 H. injection H as <-.
    exists (list_of_set python2 h). split; [reflexivity|]. split.
    + apply NoDup_Permutation; try apply list_of_set_NoDup.
      intros x. rewrite !list_of_set_In. reflexivity.
    + intros Hsame. apply Hsame.
  - discriminate.
  - discriminate.
  - intros e H. exact H.
Qed.

Lemma same_elements_under_any_interpreter_witness :
  exists out2,
    django_dottedstring_imports polls_submodules iteration_reversed
      mysite_settings = Ok out2
    /\ Permutation mysite_imports out2
    /\ ((forall l, list_of_set iteration_kept l
                   = list_of_set iteration_reversed l) ->
        mysite_imports = out2).
Proof.
  apply (proj1 (same_elements_under_any_interpreter polls_submodules
                  iteration_kept iteration_reversed mysite_settings)).
  vm_compute. reflexivity.
Defined.

(** C3 as stated fails: the same settings and search path give two
    different lists under two interpreters whose sets iterate in
    different orders. *)
Lemma iteration_order_changes_list :
  django_dottedstring_imports polls_submodules iteration_kept
    mysite_settings = Ok mysite_imports
  /\ django_dottedstring_imports polls_submodules iteration_reversed
       mysite_settings = Ok (rev mysite_imports)
  /\ mysite_imports <> rev mysite_imports.
Proof.
  split; [vm_compute; reflexivity|]. split; [vm_compute; reflexivity|].
  intros H. apply (f_equal (hd "")) in H. vm_compute in H. discriminate H.
Qed.

(* ------------------------------------------------------------------ *)
(** ** Template options and bare names *)

(** C9: every context processor listed under a TEMPLATES entry's OPTIONS
    is in the returned list as it stands; [hasattr(templ, 'OPTIONS')] is
    false, [templ] being a dictionary; and the loop of lines 115-125,
    whenever it completes, has appended the stripped BACKEND of each
    entry and no stripped context processor. *)
Theorem template_context_processors_verbatim
  collect_submodules python s out p :
  django_dottedstring_imports collect_submodules python s = Ok out ->
  template_context_processor s p ->
  In p out
  /\ dict_hasattr "OPTIONS" = false
  /\ (forall h r, add_TEMPLATES_backends s h = Ok r ->
        r = (tt, h ++ map template_backend_module (get (TEMPLATES s) []))).
Proof.
  intros Hout Hp. split; [|split].
  - apply (imports_In _ _ _ _ Hout).
    apply context_processor_contributes, Hp.
  - reflexivity.
  - intros h r Hr.
    destruct (add_TEMPLATES_backends_emits s h) as [Hok Hinv].
    rewrite (Hok (Hinv r Hr)) in Hr. injection Hr as <-. reflexivity.
Qed.

Lemma template_context_processors_verbatim_witness :
  In "django.template.context_processors.request" mysite_imports
  /\ dict_hasattr "OPTIONS" = false
  /\ (forall h r, add_TEMPLATES_backends mysite_settings h = Ok r ->
        r = (tt, h ++ map template_backend_module
                        (get (TEMPLATES mysite_settings) []))).
Proof.
  apply (template_context_processors_verbatim polls_submodules
           iteration_kept mysite_settings mysite_imports
           "django.template.context_processors.request").
  - vm_compute. reflexivity.
  - unfold template_context_processor.
    eexists _, _, _, _. repeat split.
    + left. reflexivity.
    + reflexivity.
    + reflexivity.
    + left. reflexivity.
Defined.

(** C10: for a class name without a dot, [_remove_class] returns the
    empty string, and the empty string is what the returned list holds
    for it. *)
Theorem bare_class_name_gives_empty_string
  collect_submodules python s out cl :
  has_dot cl = false ->
  class_name s cl ->
  django_dottedstring_imports collect_submodules python s = Ok out ->
  _remove_class cl = "" /\ In "" out.
Proof.
  intros Hdot Hcl Hout.
  pose proof (remove_class_no_dot _ Hdot) as E. split; [exact E|].
  rewrite <- E. apply (imports_In _ _ _ _ Hout).
  apply class_name_contributes, Hcl.
Qed.

Lemma bare_class_name_gives_empty_string_witness :
  _remove_class "polls" = "" /\ In "" bare_middleware_imports.
Proof.
  apply (bare_class_name_gives_empty_string polls_submodules iteration_kept
           (with_MIDDLEWARE (Some ["polls"]) mysite_settings)
           bare_middleware_imports "polls").
  - reflexivity.
  - eapply cn_MIDDLEWARE; [reflexivity | left; reflexivity].
  - vm_compute. reflexivity.
Defined.

(* ================================================================== *)
(** * Further properties of [_remove_class] *)

(** A class name is its module path, a dot and its last component, put
    back together; a name without a dot has the empty module path. *)
Theorem remove_class_decomposition (s : string) :
  (has_dot s = false /\ _remove_class s = "")
  \/ (exists c, has_dot c = false
                /\ s = (_remove_class s ++ String "." c)%string).
Proof.
  destruct (has_dot s) eqn:Hdot.
  - right. destruct (last_component _ Hdot) as (m & c & -> & Hc).
    exists c. split; [exact Hc|].
    rewrite remove_class_module by exact Hc. reflexivity.
  - left. split; [reflexivity | apply remove_class_no_dot, Hdot].
Qed.

(* ================================================================== *)
(** * Which exception, and when *)

Lemma raises_bind_l {A B} (m : M A) (k : A -> M B) e :
  raises m e -> raises (bind m k) e.
Proof. intros Hm h. unfold bind. rewrite (Hm h). reflexivity. Qed.

Lemma raises_bind_r {B} (m : M unit) (k : M B) (P : Prop) l e :
  emits m P l -> P -> raises k e -> raises (m ;; k) e.
Proof.
  intros Hm p Hk h. unfold bind.
  rewrite (proj1 (Hm h) p). apply Hk.
Qed.

(** A loop raises as soon as one round does, the rounds before it having
    completed. *)
Lemma for_each_raises {A} (body : A -> M unit) (P : A -> Prop) f e xs :
  (forall x, emits (body x) (P x) (f x)) ->
  (forall x, P x \/ raises (body x) e) ->
  Exists (fun x => ~ P x) xs ->
  raises (for_each xs body) e.
Proof.
  intros Hemits Hcases. induction xs as [|x xs IH]; intros Hex.
  - inversion Hex.
  - simpl. destruct (Hcases x) as [p|r].
    + inversion Hex as [? ? Hn | ? ? Htail]; subst; [contradiction|].
      eapply raises_bind_r; [apply Hemits | exact p | exact (IH Htail)].
    + apply raises_bind_l, r.
Qed.

Lemma existsb_absent_Exists {A B} (key : A -> option B) xs :
  existsb (fun x => absent (key x)) xs = true ->
  Exists (fun x => ~ key x <> None) xs.
Proof.
  intros H. apply existsb_exists in H as (x & Hin & Hx).
  apply Exists_exists. exists x. split; [exact Hin|].
  destruct (key x); [discriminate | intros Hn; apply Hn; reflexivity].
Qed.

Lemma existsb_absent_Forall {A B} (key : A -> option B) xs :
  existsb (fun x => absent (key x)) xs = false ->
  Forall (fun x => key x <> None) xs.
Proof.
  intros H. apply Forall_forall. intros x Hin Hx.
  assert (existsb (fun x => absent (key x)) xs = true) as Ht.
  { apply existsb_exists. exists x. split; [exact Hin|].
    rewrite Hx. reflexivity. }
  rewrite H in Ht. discriminate.
Qed.

Lemma add_ROOT_URLCONF_raises s :
  ROOT_URLCONF s = None ->
  raises (add_ROOT_URLCONF s) (AttributeError "ROOT_URLCONF").
Proof. intros E h. unfold add_ROOT_URLCONF. rewrite E. reflexivity. Qed.

Lemma add_TEMPLATES_backends_raises s :
  existsb (fun templ => absent (template_BACKEND templ))
    (get (TEMPLATES s) []) = true ->
  raises (add_TEMPLATES_backends s) (KeyError "BACKEND").
Proof.
  intros H. unfold add_TEMPLATES_backends.
  destruct (TEMPLATES s) as [templates|]; [|discriminate]. simpl in H.
  unfold if_hasattr.
  apply for_each_raises with
    (P := fun t => template_BACKEND t <> None)
    (f := fun t => [template_backend_module t]).
  - exact templ_body_emits.
  - intros t. destruct (template_BACKEND t) as [b|].
    + left. discriminate.
    + right. intros h. reflexivity.
  - apply existsb_absent_Exists, H.
Qed.

Lemma add_DATABASES_raises_absent s :
  DATABASES s = None ->
  raises (add_DATABASES s) (AttributeError "DATABASES").
Proof. intros E h. unfold add_DATABASES. rewrite E. reflexivity. Qed.

Lemma add_DATABASES_raises_key s databases :
  DATABASES s = Some databases ->
  existsb (fun v => absent (ENGINE v)) (values databases) = true ->
  raises (add_DATABASES s) (KeyError "ENGINE").
Proof.
  intros E H. unfold add_DATABASES. rewrite E.
  change (raises
            (for_each (values databases) (fun v =>
               engine <- getitem "ENGINE" (ENGINE v) ;; append engine))
            (KeyError "ENGINE")).
  apply for_each_raises with
    (P := fun v => ENGINE v <> None) (f := fun v => [database_engine v]).
  - intros v. eapply emits_conseq.
    + apply emits_getitem with (P := fun _ => True) (f := fun e => [e]).
      intros e. apply emits_append.
    + destruct (ENGINE v); split; try tauto; discriminate.
    + unfold database_engine. destruct (ENGINE v); [reflexivity | tauto].
  - intros v. destruct (ENGINE v) as [e|].
    + left. discriminate.
    + right. intros h. reflexivity.
  - apply existsb_absent_Exists, H.
Qed.

Lemma collect_after_init collect_submodules s apps :
  INSTALLED_APPS s = Some apps ->
  collect collect_submodules s [] = after_init collect_submodules s apps.
Proof.
  intros E. unfold collect, init_INSTALLED_APPS. rewrite E. reflexivity.
Qed.

(** Steps over a statement that completes. *)
Ltac completes :=
  eapply raises_bind_r;
  [ first [ apply add_TEMPLATE_CONTEXT_PROCESSORS_emits
          | apply add_TEMPLATES_context_processors_emits
          | apply add_CACHES_emits
          | apply scan_STORAGES_emits
          | apply add_TEMPLATE_LOADERS_emits
          | apply add_ROOT_URLCONF_emits
          | apply add_class_names_emits
          | apply add_DEFAULT_FILE_STORAGE_emits
          | apply add_TEMPLATES_backends_emits ]
  | first [ exact I | assumption ]
  | ].

(** The function behaves as [outcome] says: the exception is that of the
    first missing unguarded attribute or key in statement order
    (INSTALLED_APPS, ROOT_URLCONF, a TEMPLATES entry's BACKEND,
    DATABASES, a DATABASES entry's ENGINE), and there is no other. *)
Theorem imports_outcome collect_submodules python s :
  django_dottedstring_imports collect_submodules python s
  = outcome collect_submodules python s.
Proof.
  unfold outcome.
  destruct (INSTALLED_APPS s) as [apps|] eqn:Eapps; simpl.
  2: { rewrite imports_unfold. unfold collect, init_INSTALLED_APPS.
       rewrite Eapps. reflexivity. }
  assert (Hraise : forall e, raises (after_init collect_submodules s) e ->
            django_dottedstring_imports collect_submodules python s = Raise e).
  { intros e He. rewrite imports_unfold, (collect_after_init _ _ _ Eapps), He.
    reflexivity. }
  destruct (ROOT_URLCONF s) as [root|] eqn:Eroot; simpl.
  2: { apply Hraise. unfold after_init. do 5 completes.
       apply raises_bind_l, add_ROOT_URLCONF_raises, Eroot. }
  assert (Hroot : ROOT_URLCONF s <> None) by (rewrite Eroot; discriminate).
  destruct (existsb (fun templ => absent (template_BACKEND templ))
              (get (TEMPLATES s) [])) eqn:Etempl.
  { apply Hraise. unfold after_init. do 11 completes.
    apply raises_bind_l, add_TEMPLATES_backends_raises, Etempl. }
  apply existsb_absent_Forall in Etempl.
  destruct (DATABASES s) as [databases|] eqn:Edb.
  2: { apply Hraise. unfold after_init. do 12 completes.
       apply raises_bind_l, add_DATABASES_raises_absent, Edb. }
  destruct (existsb (fun v => absent (ENGINE v)) (values databases)) eqn:Eeng.
  { apply Hraise. unfold after_init. do 12 completes.
    apply raises_bind_l. exact (add_DATABASES_raises_key _ _ Edb Eeng). }
  apply existsb_absent_Forall in Eeng.
  apply imports_spec. split; [|reflexivity].
  unfold required_present. rewrite Eapps, Edb.
  repeat split; try discriminate; assumption.
Qed.

(** The function returns a list exactly when INSTALLED_APPS,
    ROOT_URLCONF and DATABASES are present, every TEMPLATES entry has a
    BACKEND key and every DATABASES entry an ENGINE key. *)
Theorem returns_iff_required_present collect_submodules python s :
  (exists out,
     django_dottedstring_imports collect_submodules python s = Ok out)
  <-> required_present s.
Proof.
  split.
  - intros [out H]. apply imports_spec in H. exact (proj1 H).
  - intros Hreq.
    exists (list_of_set python (contributions collect_submodules s)).
    apply imports_spec. split; [exact Hreq | reflexivity].
Qed.

(* ================================================================== *)
(** * Where the returned names come from *)

Lemma In_stripped_inv v x :
  In x (stripped v) ->
  exists cl, v = Some cl /\ nonempty cl = true /\ x = _remove_class cl.
Proof.
  destruct v as [cl|]; simpl; [|intros []].
  destruct (nonempty cl) eqn:E; [|intros []].
  intros [<-|[]]. exists cl. repeat split. exact E.
Qed.

Lemma In_class_modules_inv attr x :
  In x (class_modules attr) ->
  exists l cl, attr = Some l /\ In cl l /\ x = _remove_class cl.
Proof.
  unfold class_modules. destruct attr as [l|]; simpl; [|intros []].
  intros H. apply in_map_iff in H as (cl & <- & Hcl).
  exists l, cl. repeat split. exact Hcl.
Qed.

Lemma In_get_inv {A} (attr : option (list A)) x :
  In x (get attr []) -> exists l, attr = Some l /\ In x l.
Proof.
  destruct attr as [l|]; simpl; [|intros []].
  intros H. exists l. split; [reflexivity | exact H].
Qed.

Lemma In_values_inv {V} (d : dict V) v :
  In v (values d) -> exists alias, In (alias, v) d.
Proof.
  unfold values. intros H. apply in_map_iff in H as ([alias v'] & E & Hin).
  simpl in E. subst v'. exists alias. exact Hin.
Qed.

Lemma contribution_origin collect_submodules s x :
  required_present s ->
  In x (contributions collect_submodules s) ->
  origin collect_submodules s x.
Proof.
  intros (_ & _ & _ & Htempl & Hdb). unfold contributions.
  rewrite !in_app_iff.
  intros [H|[H|[H|[H|[H|[H|[H|[H|[H|[H|[H|[H|[H|H]]]]]]]]]]]]].
  - apply In_get_inv in H as (l & E & Hl).
    apply origin_plain. eapply pm_INSTALLED_APPS; eassumption.
  - apply In_get_inv in H as (l & E & Hl).
    apply origin_plain. eapply pm_TEMPLATE_CONTEXT_PROCESSORS; eassumption.
  - apply in_flat_map in H as (templ & Ht & Hx).
    apply In_get_inv in Ht as (templates & E & Ht).
    unfold template_context_processors in Hx.
    destruct (template_OPTIONS templ) as [options|] eqn:Eo; [|destruct Hx].
    simpl in Hx. apply In_get_inv in Hx as (l & El & Hl).
    apply origin_context_processor.
    exists templates, templ, options, l. repeat split; assumption.
  - apply in_flat_map in H as (cache & Hc & Hx).
    destruct (CACHES s) as [caches|] eqn:E; [|destruct Hc]. simpl in Hc.
    apply In_values_inv in Hc as (alias & Hc).
    unfold cache_classes in Hx. apply in_app_iff in Hx as [Hx|Hx].
    + apply In_stripped_inv in Hx as (cl & Eb & Hne & ->).
      eapply origin_class; [|reflexivity].
      eapply cn_CACHES_BACKEND; eassumption.
    + destruct (cache_OPTIONS cache) as [options|] eqn:Eo; [|destruct Hx].
      simpl in Hx. apply In_stripped_inv in Hx as (cl & Ecl & Hne & ->).
      eapply origin_class; [|reflexivity].
      eapply cn_CACHES_CLIENT_CLASS; eassumption.
  - apply In_get_inv in H as (l & E & Hl).
    apply origin_plain. eapply pm_TEMPLATE_LOADERS; eassumption.
  - destruct (ROOT_URLCONF s) as [root|] eqn:E; [|destruct H].
    destruct H as [<-|[]]. apply origin_plain, pm_ROOT_URLCONF, E.
  - apply In_class_modules_inv in H as (l & cl & E & Hl & ->).
    eapply origin_class; [|reflexivity].
    eapply cn_AUTHENTICATION_BACKENDS; eassumption.
  - apply In_stripped_inv in H as (cl & E & Hne & ->).
    eapply origin_class; [|reflexivity].
    eapply cn_DEFAULT_FILE_STORAGE; eassumption.
  - apply In_class_modules_inv in H as (l & cl & E & Hl & ->).
    eapply origin_class; [|reflexivity].
    eapply cn_FILE_UPLOAD_HANDLERS; eassumption.
  - apply In_class_modules_inv in H as (l & cl & E & Hl & ->).
    eapply origin_class; [|reflexivity].
    eapply cn_MIDDLEWARE_CLASSES; eassumption.
  - apply In_class_modules_inv in H as (l & cl & E & Hl & ->).
    eapply origin_class; [|reflexivity].
    eapply cn_MIDDLEWARE; eassumption.
  - apply in_map_iff in H as (templ & <- & Ht).
    pose proof (proj1 (Forall_forall _ _) Htempl templ Ht) as Hb.
    apply In_get_inv in Ht as (templates & E & Ht).
    unfold template_backend_module.
    destruct (template_BACKEND templ) as [b|] eqn:Eb; [|contradiction].
    eapply origin_class; [|reflexivity].
    eapply cn_TEMPLATES_BACKEND; eassumption.
  - apply in_map_iff in H as (v & <- & Hv).
    pose proof (proj1 (Forall_forall _ _) Hdb v Hv) as He.
    destruct (DATABASES s) as [databases|] eqn:E; [|destruct Hv].
    simpl in Hv. apply In_values_inv in Hv as (alias & Hv).
    unfold database_engine.
    destruct (ENGINE v) as [engine|] eqn:Ee; [|contradiction].
    apply origin_plain. eapply pm_DATABASES; eassumption.
  - apply in_flat_map in H as (app & Happ & Hx).
    apply In_get_inv in Happ as (apps & E & Happ).
    eapply origin_app; eassumption.
Qed.

(** A name is in the returned list exactly when a setting puts it there:
    as a module listed in a setting, as a context processor of a
    TEMPLATES entry, as the stripped form of a class name, or as one of
    the template-tag and context-processor modules of an installed
    application.  Nothing else is returned, and nothing of STORAGES. *)
Theorem returned_names_have_origin collect_submodules python s out x :
  django_dottedstring_imports collect_submodules python s = Ok out ->
  (In x out <-> origin collect_submodules s x).
Proof.
  intros Hout. rewrite (imports_In _ _ _ x Hout).
  apply imports_spec in Hout as [Hreq _]. split.
  - apply contribution_origin, Hreq.
  - intros [Hp | Hc | cl Hcl -> | apps app E Happ Hx].
    + apply plain_module_contributes, Hp.
    + apply context_processor_contributes, Hc.
    + apply class_name_contributes, Hcl.
    + eapply app_modules_contribute; eassumption.
Qed.

Lemma returned_names_have_origin_witness :
  In "mysite.urls" mysite_imports
  <-> origin polls_submodules mysite_settings "mysite.urls".
Proof.
  apply (returned_names_have_origin polls_submodules iteration_kept
           mysite_settings mysite_imports "mysite.urls").
  vm_compute. reflexivity.
Defined.

(* ================================================================== *)
(** * The smallest project *)

Lemma list_of_set_singleton python x : list_of_set python [x] = [x].
Proof.
  pose proof (list_of_set_NoDup python [x]) as Hnd.
  pose proof (list_of_set_In python [x]) as Hin.
  destruct (list_of_set python [x]) as [|a l].
  - exfalso. apply (Hin x). left. reflexivity.
  - assert (Ha : a = x).
    { destruct (proj1 (Hin a) (or_introl eq_refl)) as [E|[]]. symmetry. exact E. }
    subst a. destruct l as [|b l]; [reflexivity|]. exfalso.
    assert (Hb : b = x).
    { destruct (proj1 (Hin b) (or_intror (or_introl eq_refl))) as [E|[]].
      symmetry. exact E. }
    subst b. inversion Hnd as [|? ? Hnot _]. apply Hnot. left. reflexivity.
Qed.

(** With no installed application, no database and none of the optional
    settings, the function returns the URL configuration module alone,
    whatever the interpreter and the search path. *)
Theorem bare_settings_give_root_urlconf collect_submodules python root :
  django_dottedstring_imports collect_submodules python (bare_settings root)
  = Ok [root].
Proof.
  apply imports_spec. split.
  - unfold required_present. simpl.
    repeat split; try discriminate; constructor.
  - change (contributions collect_submodules (bare_settings root)) with [root].
    rewrite list_of_set_singleton. reflexivity.
Qed.

(* ================================================================== *)
(** * The settings module *)

(** A DJANGO_SETTINGS_MODULE that is already set is used as it is and
    the environment stays as it was; one that is not set becomes the
    base name of the project directory followed by [.settings], and no
    other variable changes. *)
Theorem settings_module_choice basename django_root_dir env :
  (forall v, env "DJANGO_SETTINGS_MODULE" = Some v ->
     fst (set_settings_module basename django_root_dir env) = v
     /\ forall name,
          snd (set_settings_module basename django_root_dir env) name
          = env name)
  /\ (env "DJANGO_SETTINGS_MODULE" = None ->
      fst (set_settings_module basename django_root_dir env)
      = (basename django_root_dir ++ ".settings")%string
      /\ forall name,
           snd (set_settings_module basename django_root_dir env) name
           = if String.eqb name "DJANGO_SETTINGS_MODULE"
             then Some (basename django_root_dir ++ ".settings")%string
             else env name).
Proof.
  unfold set_settings_module, environ_set. simpl. split.
  - intros v E. rewrite E. simpl. split; [reflexivity|].
    intros name. destruct (String.eqb name "DJANGO_SETTINGS_MODULE") eqn:En;
      [|reflexivity].
    apply String.eqb_eq in En. subst name. symmetry. exact E.
  - intros E. rewrite E. simpl. split; reflexivity.
Qed.

Lemma settings_module_choice_witness :
  fst (set_settings_module posix_basename "/srv/project/mysite"
         production_environ)
  = "mysite.settings.production"
  /\ forall name,
       snd (set_settings_module posix_basename "/srv/project/mysite"
              production_environ) name
       = production_environ name.
Proof.
  apply (proj1 (settings_module_choice posix_basename "/srv/project/mysite"
                  production_environ)).
  reflexivity.
Defined.


(* ================================================================== *)
(** * [django_find_root_dir] *)

Lemma contains_In x names : contains x names = true <-> In x names.
Proof.
  unfold contains. rewrite existsb_exists. split.
  - intros (y & Hin & E). apply String.eqb_eq in E. subst y. exact Hin.
  - intros Hin. exists x. split; [exact Hin | apply String.eqb_refl].
Qed.

Lemma contains_same_elements x l l' :
  (forall y, In y l <-> In y l') -> contains x l = contains x l'.
Proof.
  intros H. destruct (contains x l) eqn:E, (contains x l') eqn:E';
    try reflexivity.
  - apply contains_In, H, contains_In in E. congruence.
  - apply contains_In, H, contains_In in E'. congruence.
Qed.

(** The test looks at the names only, not at their order or number. *)
Lemma has_settings_and_urls_set python l :
  has_settings_and_urls (list_of_set python l) = has_settings_and_urls l.
Proof.
  unfold has_settings_and_urls.
  rewrite !(contains_same_elements _ (list_of_set python l) l)
    by (intros y; apply list_of_set_In).
  reflexivity.
Qed.

Section FindRootDir.

Variable listdir : string -> list string.
Variable isdir : string -> bool.
Variable path_join : string -> string -> string.

Lemma search_subdirectories_Some manage_dir files d :
  search_subdirectories listdir isdir path_join manage_dir files = Some d ->
  exists f, In f files
    /\ isdir (path_join manage_dir f) = true
    /\ has_settings_and_urls (listdir (path_join manage_dir f)) = true
    /\ d = path_join manage_dir f.
Proof.
  induction files as [|f files IH]; simpl; [discriminate|].
  destruct (isdir (path_join manage_dir f)) eqn:Edir.
  - destruct (has_settings_and_urls (listdir (path_join manage_dir f)))
      eqn:Ehas.
    + intros H. injection H as <-. exists f. auto.
    + intros H. destruct (IH H) as (f' & Hin & Hrest). exists f'. auto.
  - intros H. destruct (IH H) as (f' & Hin & Hrest). exists f'. auto.
Qed.


End FindRootDir.

(** The set of file names is only tested for membership and iterated. *)
Lemma find_root_dir_unfold
  listdir isdir path_join dirname_abspath python main_script :
  django_find_root_dir listdir isdir path_join dirname_abspath python
    main_script
  = if has_settings_and_urls (listdir (dirname_abspath main_script))
    then Some (dirname_abspath main_script)
    else search_subdirectories listdir isdir path_join
           (dirname_abspath main_script)
           (list_of_set python (listdir (dirname_abspath main_script))).
Proof.
  unfold django_find_root_dir. cbv zeta.
  rewrite has_settings_and_urls_set. reflexivity.
Qed.

Lemma search_set_Some listdir isdir path_join python manage_dir d :
  search_subdirectories listdir isdir path_join manage_dir
    (list_of_set python (listdir manage_dir)) = Some d ->
  exists f, candidate listdir isdir path_join manage_dir f
            /\ d = path_join manage_dir f.
Proof.
  intros H.
  apply search_subdirectories_Some in H as (f & Hin & Hdir & Hsub & ->).
  exists f. split; [|reflexivity].
  unfold candidate. apply list_of_set_In in Hin. auto.
Qed.


(** The directory of [manage.py] wins: when it lists [urls.py] and
    [settings.py] or [settings], it is the result, whatever its
    subdirectories hold. *)
Theorem find_root_dir_prefers_manage_dir
  listdir isdir path_join dirname_abspath python main_script :
  has_settings_and_urls (listdir (dirname_abspath main_script)) = true ->
  django_find_root_dir listdir isdir path_join dirname_abspath python
    main_script
  = Some (dirname_abspath main_script).
Proof.
  intros H. rewrite find_root_dir_unfold, H. reflexivity.
Qed.

Lemma find_root_dir_prefers_manage_dir_witness :
  django_find_root_dir flat_listdir project_isdir posix_join
    project_dirname_abspath iteration_kept "manage.py"
  = Some "/srv/project".
Proof.
  apply (find_root_dir_prefers_manage_dir flat_listdir project_isdir
           posix_join project_dirname_abspath iteration_kept "manage.py").
  reflexivity.
Defined.

(** A directory that is returned lists [urls.py] and [settings.py] or
    [settings]; it is the directory of [manage.py], or else a directory
    listed in it, and then the directory of [manage.py] failed the
    test. *)
Theorem find_root_dir_sound
  listdir isdir path_join dirname_abspath python main_script d :
  django_find_root_dir listdir isdir path_join dirname_abspath python
    main_script = Some d ->
  has_settings_and_urls (listdir d) = true
  /\ (d = dirname_abspath main_script
      \/ (has_settings_and_urls (listdir (dirname_abspath main_script))
          = false
          /\ exists f,
               candidate listdir isdir path_join
                 (dirname_abspath main_script) f
               /\ d = path_join (dirname_abspath main_script) f)).
Proof.
  rewrite find_root_dir_unfold.
  destruct (has_settings_and_urls (listdir (dirname_abspath main_script)))
    eqn:Ehas.
  - intros H. injection H as <-. split; [exact Ehas | left; reflexivity].
  - intros H. apply search_set_Some in H as (f & Hf & ->).
    split; [exact (proj2 (proj2 Hf))|]. right. split; [reflexivity|].
    exists f. split; [exact Hf | reflexivity].
Qed.

Lemma find_root_dir_sound_witness :
  has_settings_and_urls (project_listdir "/srv/project/mysite") = true
  /\ ("/srv/project/mysite" = project_dirname_abspath "manage.py"
      \/ (has_settings_and_urls
            (project_listdir (project_dirname_abspath "manage.py")) = false
          /\ exists f,
               candidate project_listdir project_isdir posix_join
                 (project_dirname_abspath "manage.py") f
               /\ "/srv/project/mysite"
                  = posix_join (project_dirname_abspath "manage.py") f)).
Proof.
  apply (find_root_dir_sound project_listdir project_isdir posix_join
           project_dirname_abspath iteration_kept "manage.py").
  vm_compute. reflexivity.
Defined.




